(** * dexy/handler.py: the DexyHandler lifecycle

    A shallow embedding of [DexyHandler] (setup, process, set_input_text,
    generate, generate_artifact, log_time) and the properties of its
    extension negotiation, process dispatch and cache gate.

    Python objects are mutable; a method is embedded as a computation in a
    state-and-exception monad whose state is the object being mutated (and,
    for the instance methods, the calls made to the collaborators that live
    outside handler.py). *)

From Stdlib Require Import String List ZArith Bool Lia.
Import ListNotations.
Open Scope string_scope.

(** ** Python values *)

(** The exceptions handler.py can end with.  Every [raise] of the module
    raises the builtin [Exception] with a text; [AttributeError] and
    [IndexError] come from attribute access and indexing. *)
Inductive exn : Type :=
| Exception (msg : string)
| AttributeError (msg : string)
| IndexError (msg : string).

(** An ordered mapping fragment-id -> content ([dict] / [OrderedDict]). *)
Definition dict := list (string * string).

(** [d[k] = v]: replaces the value of an existing key in place, appends a
    new key at the end. *)
Fixpoint dict_set (k v : string) (d : dict) : dict :=
  match d with
  | [] => [(k, v)]
  | (k', v') :: d' =>
      if String.eqb k' k then (k, v) :: d' else (k', v') :: dict_set k v d'
  end.

Fixpoint dict_get (k : string) (d : dict) : option string :=
  match d with
  | [] => None
  | (k', v') :: d' => if String.eqb k' k then Some v' else dict_get k d'
  end.

(** [x in l] for a list of strings. *)
Definition str_in (x : string) (l : list string) : bool :=
  existsb (String.eqb x) l.

(** An extension read from an artifact is a string or [None]. *)
Definition py_in (x : option string) (l : list string) : bool :=
  match x with
  | Some s => str_in s l
  | None => false
  end.

(** Truth value of a string-or-None: [None] and the empty string are false. *)
Definition truthy (x : option string) : bool :=
  match x with
  | Some s => negb (String.eqb s "")
  | None => false
  end.

(** [str(x)], as [%s] formats it. *)
Definition py_str (x : option string) : string :=
  match x with
  | Some s => s
  | None => "None"
  end.

Definition newline : string := String (Ascii.ascii_of_nat 10) EmptyString.

(** ** The collaborators' data *)

Record Doc : Type := mkDoc {
  doc_key : string            (* what doc.key() returns *)
}.

(** dexy.artifact.Artifact, as far as handler.py reads and writes it. *)
Record Artifact : Type := mkArtifact {
  key : string;
  ext : option string;
  hashstring : string;
  a_doc : Doc;
  next_handler_name : option string;
  input_data_dict : dict;
  data_dict : dict
}.

Definition set_ext (e : option string) (a : Artifact) : Artifact :=
  mkArtifact (key a) e (hashstring a) (a_doc a) (next_handler_name a)
             (input_data_dict a) (data_dict a).

Definition set_next_handler_name (n : option string) (a : Artifact) : Artifact :=
  mkArtifact (key a) (ext a) (hashstring a) (a_doc a) n
             (input_data_dict a) (data_dict a).

Definition set_input_data_dict (d : dict) (a : Artifact) : Artifact :=
  mkArtifact (key a) (ext a) (hashstring a) (a_doc a) (next_handler_name a)
             d (data_dict a).

Definition set_data_dict (d : dict) (a : Artifact) : Artifact :=
  mkArtifact (key a) (ext a) (hashstring a) (a_doc a) (next_handler_name a)
             (input_data_dict a) d.

Definition set_hashstring_field (s : string) (a : Artifact) : Artifact :=
  mkArtifact (key a) (ext a) s (a_doc a) (next_handler_name a)
             (input_data_dict a) (data_dict a).

(** [a.ext], under a name that a local variable [ext] does not hide. *)
Definition artifact_ext (a : Artifact) : option string := ext a.

(** Modelled from the spec: [Artifact.input_text] (dexy/artifact.py is not
    part of the sources) returns "the single concatenated input text", the
    contents of the input fragments joined in their order. *)
Definition input_text (a : Artifact) : string :=
  String.concat "" (map snd (input_data_dict a)).

(** ** Outcomes and the state-and-exception monad *)

Inductive outcome (A : Type) : Type :=
| Return (a : A)
| Raise (e : exn).
Arguments Return {A} a.
Arguments Raise {A} e.

Definition M (S A : Type) : Type := S -> outcome A * S.

Definition ret {S A : Type} (a : A) : M S A := fun s => (Return a, s).

Definition raise {S A : Type} (e : exn) : M S A := fun s => (Raise e, s).

Definition bind {S A B : Type} (m : M S A) (f : A -> M S B) : M S B :=
  fun s =>
    match m s with
    | (Return a, s') => f a s'
    | (Raise e, s') => (Raise e, s')
    end.

Definition get {S : Type} : M S S := fun s => (Return s, s).

Definition modify {S : Type} (f : S -> S) : M S unit := fun s => (Return tt, f s).

(** Lifts a call that returns or raises without touching the state. *)
Definition lift {S A : Type} (o : outcome A) : M S A := fun s => (o, s).

Declare Scope py_scope.
Delimit Scope py_scope with py.
Notation "x <- m ;; k" := (bind m (fun x => k))
  (at level 61, m at next level, right associativity) : py_scope.
Notation "m ;;; k" := (bind m (fun _ => k))
  (at level 61, right associativity) : py_scope.
Open Scope py_scope.

(** [for x in l: body x] *)
Fixpoint for_each {S A : Type} (l : list A) (body : A -> M S unit) : M S unit :=
  match l with
  | [] => ret tt
  | x :: l' => body x ;;; for_each l' body
  end.

(** ** Handler classes and instances *)

(** A handler class: DexyHandler or a subclass of it.  The three convenience
    methods are absent from DexyHandler itself; a subclass that defines one
    has [Some] implementation, which returns or raises. *)
Record HandlerClass : Type := mkHandlerClass {
  name : string;                                      (* __name__ *)
  INPUT_EXTENSIONS : list string;
  OUTPUT_EXTENSIONS : list string;
  ALIASES : list string;
  process_text : option (string -> outcome string);
  process_dict : option (dict -> outcome dict);
  process_text_to_dict : option (string -> outcome dict)
}.

Definition DexyHandler : HandlerClass :=
  mkHandlerClass "DexyHandler" [".*"] [".*"] ["dexy"; ""] None None None.

Inductive Logger : Type :=
| RootLogger
| ChildLogger (child : string).

(** A handler instance.  [klass()] sets no attribute: [doc], [artifact],
    [ext] and [log] exist only once assigned. *)
Record Handler : Type := mkHandler {
  klass : HandlerClass;
  h_doc : option Doc;
  artifact : option Artifact;
  h_ext : option (option string);
  log : option Logger
}.

Definition new (k : HandlerClass) : Handler := mkHandler k None None None None.

Definition with_doc (d : Doc) (h : Handler) : Handler :=
  mkHandler (klass h) (Some d) (artifact h) (h_ext h) (log h).

Definition with_artifact (a : Artifact) (h : Handler) : Handler :=
  mkHandler (klass h) (h_doc h) (Some a) (h_ext h) (log h).

Definition with_ext (e : option string) (h : Handler) : Handler :=
  mkHandler (klass h) (h_doc h) (artifact h) (Some e) (log h).

Definition with_log (l : Logger) (h : Handler) : Handler :=
  mkHandler (klass h) (h_doc h) (artifact h) (h_ext h) (Some l).

(** ** The texts of the module's exceptions *)

(** handler.py, lines 34-36. *)
Definition UnsupportedInputFormat (e : option string) (supported : list string) : exn :=
  Exception ("Extension " ++ py_str e ++ " is not supported." ++ newline
             ++ "            Supported extensions are: "
             ++ String.concat ", " supported).

(** handler.py, line 48. *)
Definition NoCompatibleFormat : exn :=
  Exception "No compatible input extension found in next handler.".

(** handler.py, lines 71, 79 and 87. *)
Definition AmbiguousProcessMethod (method_used : string) : exn :=
  Exception (method_used ++ " has already been called").

(** handler.py, line 102. *)
Definition DuplicateArtifactBinding : exn :=
  Exception "already have an artifact!".

(** ** setup *)

(** [h.artifact], and [h.artifact.x = v]. *)
Definition the_artifact : M Handler Artifact :=
  h <- get ;;
  match artifact h with
  | Some a => ret a
  | None => raise (AttributeError "artifact")
  end.

Definition update_artifact (f : Artifact -> Artifact) : M Handler unit :=
  a <- the_artifact ;;
  modify (with_artifact (f a)).

Section Setup.

(** The parts of dexy.artifact and dexy.logger that setup calls; they are
    not in handler.py.  [Artifact_setup doc artifact_key h previous_artifact]
    builds the artifact ([h] has only its class and doc at that point);
    [hash_of] is the fingerprint [set_hashstring] computes;
    [log_has_getChild] is [hasattr(dexy.logger.log, 'getChild')]. *)
Variable Artifact_setup : Doc -> string -> HandlerClass -> option Artifact -> Artifact.
Variable hash_of : Artifact -> string.
Variable log_has_getChild : bool.

(** Modelled from the spec: [Artifact.set_hashstring] (dexy/artifact.py is
    not part of the sources) computes the fingerprint "after extensions are
    resolved" and stores it; it changes no other attribute. *)
Definition set_hashstring (a : Artifact) : Artifact :=
  set_hashstring_field (hash_of a) a.

Definition setup_body (doc : Doc) (artifact_key : string)
           (previous_artifact : option Artifact)
           (next_handler : option HandlerClass) : M Handler Handler :=
  h0 <- get ;;
  modify (with_doc doc) ;;;
  modify (with_artifact
            (Artifact_setup doc artifact_key (klass h0) previous_artifact)) ;;;
  match next_handler with
  | Some nh => update_artifact (set_next_handler_name (Some (name nh)))
  | None => ret tt
  end ;;;
  (* Determine file extension. *)
  ext <- match previous_artifact with
         | Some p => ret (ext p)
         | None => raise (AttributeError "ext")
         end ;;
  (if negb (py_in ext (INPUT_EXTENSIONS (klass h0)))
      && negb (str_in ".*" (INPUT_EXTENSIONS (klass h0)))
   then raise (UnsupportedInputFormat ext (INPUT_EXTENSIONS (klass h0)))
   else ret tt) ;;;
  modify (with_ext ext) ;;;
  (if str_in ".*" (OUTPUT_EXTENSIONS (klass h0))
   then update_artifact (set_ext ext)
   else
     match next_handler with
     | Some nh =>
         if negb (str_in ".*" (INPUT_EXTENSIONS nh))
         then
           for_each (OUTPUT_EXTENSIONS (klass h0))
                    (fun e =>
                       if str_in e (INPUT_EXTENSIONS nh)
                       then update_artifact (set_ext (Some e))
                       else ret tt) ;;;
           a <- the_artifact ;;
           if negb (truthy (artifact_ext a))
           then raise NoCompatibleFormat
           else ret tt
         else
           match OUTPUT_EXTENSIONS (klass h0) with
           | e :: _ => update_artifact (set_ext (Some e))
           | [] => raise (IndexError "list index out of range")
           end
     | None =>
         match OUTPUT_EXTENSIONS (klass h0) with
         | e :: _ => update_artifact (set_ext (Some e))
         | [] => raise (IndexError "list index out of range")
         end
     end) ;;;
  update_artifact set_hashstring ;;;
  modify (with_log (if log_has_getChild
                    then ChildLogger (name (klass h0))
                    else RootLogger)) ;;;
  get.

(** [klass.setup(doc, artifact_key, previous_artifact, next_handler)]: the
    outcome, and the instance [h] as it is when setup returns or raises. *)
Definition setup (k : HandlerClass) (doc : Doc) (artifact_key : string)
           (previous_artifact : option Artifact)
           (next_handler : option HandlerClass) : outcome Handler * Handler :=
  setup_body doc artifact_key previous_artifact next_handler (new k).

(** The instance when the check of line 33 runs: its doc and its artifact
    are set, and the artifact carries the next handler's name. *)
Definition checked (k : HandlerClass) (doc : Doc) (artifact_key : string)
           (p : Artifact) (next_handler : option HandlerClass) : Handler :=
  with_artifact
    (match next_handler with
     | Some nh => set_next_handler_name (Some (name nh))
                    (Artifact_setup doc artifact_key k (Some p))
     | None => Artifact_setup doc artifact_key k (Some p)
     end)
    (with_doc doc (new k)).

(** The instance setup returns when lines 39-50 leave the artifact [a]. *)
Definition finished (k : HandlerClass) (doc : Doc) (p a : Artifact) : Handler :=
  mkHandler k (Some doc) (Some (set_hashstring a)) (Some (ext p))
            (Some (if log_has_getChild then ChildLogger (name k) else RootLogger)).

End Setup.

(** Whether the check of line 33 lets the upstream extension through. *)
Definition accepts (k : HandlerClass) (e : option string) : bool :=
  py_in e (INPUT_EXTENSIONS k) || str_in ".*" (INPUT_EXTENSIONS k).

(** ** The instance methods *)

(** The row that log_time hands to the controller. *)
Record Row : Type := mkRow {
  row_key : string;
  row_hashstring : string;
  row_doc_key : string;
  row_class : string;
  row_method : string;
  row_start : Z;
  row_finish : Z;
  row_elapsed : Z
}.

(** The calls that leave handler.py: into the convenience methods of the
    concrete class, into the artifact's storage, into the controller. *)
Inductive Call : Type :=
| CallProcessText (input_text : string)
| CallProcessDict (input_dict : dict)
| CallProcessTextToDict (input_text : string)
| CallLoadDj (a : Artifact)
| CallGenerate (a : Artifact)
| CallLogTime (row : Row).

(** What an instance method runs on: the instance [self], the calls made so
    far (oldest first), and the clock that [time.time()] reads, as the
    sequence of its readings.  Timestamps are counted in whole clock ticks;
    no property below depends on their values. *)
Record State : Type := mkState {
  self : Handler;
  calls : list Call;
  clock : nat -> Z;
  reads : nat
}.

Definition with_self (h : Handler) (s : State) : State :=
  mkState h (calls s) (clock s) (reads s).

Definition record_call (c : Call) (s : State) : State :=
  mkState (self s) (calls s ++ [c]) (clock s) (reads s).

(** Runs a computation on the instance inside a computation on the state. *)
Definition on_self {A : Type} (m : M Handler A) : M State A :=
  fun s =>
    match m (self s) with
    | (o, h) => (o, with_self h s)
    end.

(** A call that leaves handler.py: recorded, then it returns or raises. *)
Definition call {A : Type} (c : Call) (o : outcome A) : M State A :=
  modify (record_call c) ;;; lift o.

(** [time.time()] *)
Definition time_time : M State Z :=
  fun s => (Return (clock s (reads s)),
            mkState (self s) (calls s) (clock s) (S (reads s))).

(** [if method_used: raise Exception("%s has already been called" % method_used)] *)
Definition check_unused (method_used : option string) : M State unit :=
  if truthy method_used
  then raise (AmbiguousProcessMethod (py_str method_used))
  else ret tt.

(** [DexyHandler.process].  A convenience method is a function of its
    argument: it returns a value or raises, and leaves [self] alone.  The
    classes of this development keep this method and plug convenience methods
    into it; a subclass that overrides process itself is outside it.

    Line 94 makes [data_dict] the very object [input_data_dict] names.  The
    mappings are kept here as values: process is the last thing that writes
    to either of them, and line 74 is taken to write to a [data_dict] that
    the artifact owns. *)
Definition process : M State string :=
  s0 <- get ;;
  let method_used : option string := None in
  method_used <-
    match process_text (klass (self s0)) with
    | Some self_process_text =>
        check_unused method_used ;;;
        a <- on_self the_artifact ;;
        let input_text := input_text a in
        output_text <- call (CallProcessText input_text)
                            (self_process_text input_text) ;;
        on_self (update_artifact
                   (fun a => set_data_dict (dict_set "1" output_text (data_dict a)) a)) ;;;
        ret (Some "process_text")
    | None => ret method_used
    end ;;
  method_used <-
    match process_dict (klass (self s0)) with
    | Some self_process_dict =>
        check_unused method_used ;;;
        a <- on_self the_artifact ;;
        let input_dict := input_data_dict a in
        output_dict <- call (CallProcessDict input_dict)
                            (self_process_dict input_dict) ;;
        on_self (update_artifact (set_data_dict output_dict)) ;;;
        ret (Some "process_dict")
    | None => ret method_used
    end ;;
  method_used <-
    match process_text_to_dict (klass (self s0)) with
    | Some self_process_text_to_dict =>
        check_unused method_used ;;;
        a <- on_self the_artifact ;;
        let input_text := input_text a in
        output_dict <- call (CallProcessTextToDict input_text)
                            (self_process_text_to_dict input_text) ;;
        on_self (update_artifact (set_data_dict output_dict)) ;;;
        ret (Some "process_text_to_dict")
    | None => ret method_used
    end ;;
  method_used <-
    (if negb (truthy method_used)
     then
       a <- on_self the_artifact ;;
       on_self (update_artifact (set_data_dict (input_data_dict a))) ;;;
       ret (Some "process")
     else ret method_used) ;;
  ret (py_str method_used).

Section Lifecycle.

(** The parts of dexy.artifact the instance methods call; they are not in
    handler.py.  [Artifact_new] is what [Artifact()] builds;
    [dj_file_exists] tells whether the artifact is in the cache;
    [load_dj] is what [artifact.load_dj()] makes of the artifact, or the
    exception it raises when the cached record cannot be read (nothing in
    handler.py catches it); [artifact_generate] is what
    [artifact.generate()] does to the artifact. *)
Variable Artifact_new : Artifact.
Variable dj_file_exists : Artifact -> bool.
Variable load_dj : Artifact -> outcome Artifact.
Variable artifact_generate : Artifact -> Artifact.

Definition set_input_text (input_text : string) : M State unit :=
  s <- get ;;
  match artifact (self s) with
  | Some _ => raise DuplicateArtifactBinding
  | None => ret tt
  end ;;;
  on_self (modify (with_artifact Artifact_new)) ;;;
  on_self (update_artifact (set_input_data_dict [("1", input_text)])) ;;;
  on_self (update_artifact (set_data_dict [])).

Definition generate : M State unit :=
  a <- on_self the_artifact ;;
  modify (record_call (CallGenerate a)) ;;;
  on_self (modify (with_artifact (artifact_generate a))).

Definition log_time (start finish : Z) (method : string) : M State unit :=
  a <- on_self the_artifact ;;
  let doc := a_doc a in
  let elapsed := (finish - start)%Z in
  s <- get ;;
  let row := mkRow (key a) (hashstring a) (doc_key doc)
                   (name (klass (self s))) method start finish elapsed in
  modify (record_call (CallLogTime row)).

Definition generate_artifact : M State Artifact :=
  start <- time_time ;;
  a <- on_self the_artifact ;;
  method <-
    (if dj_file_exists a
     then
       let method := "cached" in
       loaded <- call (CallLoadDj a) (load_dj a) ;;
       on_self (modify (with_artifact loaded)) ;;;
       ret method
     else
       let method := "generated" in
       process ;;;
       generate ;;;
       ret method) ;;
  finish <- time_time ;;
  log_time start finish method ;;;
  on_self the_artifact.

End Lifecycle.

(** How many of the three convenience methods a class defines. *)
Definition styles_implemented (k : HandlerClass) : nat :=
  match process_text k with Some _ => 1 | None => 0 end
  + match process_dict k with Some _ => 1 | None => 0 end
  + match process_text_to_dict k with Some _ => 1 | None => 0 end.

(** The first convenience method that process finds, in its probing order. *)
Definition selected_style (k : HandlerClass) : option string :=
  match process_text k, process_dict k, process_text_to_dict k with
  | Some _, _, _ => Some "process_text"
  | None, Some _, _ => Some "process_dict"
  | None, None, Some _ => Some "process_text_to_dict"
  | None, None, None => None
  end.

Definition raised {A : Type} (o : outcome A) : option exn :=
  match o with
  | Return _ => None
  | Raise e => Some e
  end.

(** What that first method raises on the artifact's input, if it raises. *)
Definition selected_raises (k : HandlerClass) (a : Artifact) : option exn :=
  match process_text k, process_dict k, process_text_to_dict k with
  | Some f, _, _ => raised (f (input_text a))
  | None, Some f, _ => raised (f (input_data_dict a))
  | None, None, Some f => raised (f (input_text a))
  | None, None, None => None
  end.

(** The artifacts handed to [artifact.generate()] so far, oldest first. *)
Definition persisted (s : State) : list Artifact :=
  flat_map (fun c => match c with
                     | CallGenerate a => [a]
                     | _ => []
                     end) (calls s).

(** The methods reported to the controller so far, oldest first. *)
Definition reported (s : State) : list string :=
  flat_map (fun c => match c with
                     | CallLogTime row => [row_method row]
                     | _ => []
                     end) (calls s).

(** The calls into the convenience methods so far. *)
Definition is_style_call (c : Call) : bool :=
  match c with
  | CallProcessText _ | CallProcessDict _ | CallProcessTextToDict _ => true
  | _ => false
  end.

(** ** The negotiation rule in the spec's words, and what the loop computes *)

(** Section 4.1, step 3 of the spec, in its words: "the first entry of this
    stage's producedOutputExtensions, in declared order, that also appears in
    the next stage's accepted-input sequence". *)
Definition spec_first_match (produced accepted : list string) : option string :=
  find (fun e => str_in e accepted) produced.

(** One turn of the loop of lines 43-45, on the artifact. *)
Definition pick (accepted : list string) (a : Artifact) (e : string) : Artifact :=
  if str_in e accepted then set_ext (Some e) a else a.

(** The entry the loop of lines 43-45 leaves in [h.artifact.ext]: every
    matching entry overwrites the one before it. *)
Definition last_match (produced accepted : list string) : option string :=
  fold_left (fun acc e => if str_in e accepted then Some e else acc) produced None.

(** The artifact as it is when the extension check of line 33 runs. *)
Definition named_for (next_handler : option HandlerClass) (a : Artifact) : Artifact :=
  match next_handler with
  | Some nh => set_next_handler_name (Some (name nh)) a
  | None => a
  end.

(** ** Instances for the examples *)

Definition ex_doc : Doc := mkDoc "intro.md".

(** An artifact factory: the new artifact has no extension yet and takes the
    previous artifact's output as its input. *)
Definition ex_Artifact_setup (doc : Doc) (artifact_key : string)
           (k : HandlerClass) (previous_artifact : option Artifact) : Artifact :=
  mkArtifact artifact_key None "" doc None
             (match previous_artifact with
              | Some p => data_dict p
              | None => []
              end)
             [].

Definition ex_hash_of (a : Artifact) : string :=
  key a ++ "|" ++ py_str (ext a) ++ "|" ++ input_text a.

Definition ex_previous (e : string) : Artifact :=
  mkArtifact "intro.md" (Some e) "0" ex_doc None [] [("1", "hello")].

Definition ex_class (n : string) (inp out : list string) : HandlerClass :=
  mkHandlerClass n inp out [n] None None None.

Definition ex_stage (pt : option (string -> outcome string))
           (pd : option (dict -> outcome dict))
           (pttd : option (string -> outcome dict)) : HandlerClass :=
  mkHandlerClass "Stage" [".*"] [".*"] ["stage"] pt pd pttd.

Definition ex_artifact : Artifact :=
  mkArtifact "intro.md|stage" (Some "md") "h1" ex_doc None
             [("1", "hello "); ("2", "world")] [].

Definition ex_state (k : HandlerClass) : State :=
  mkState (mkHandler k (Some ex_doc) (Some ex_artifact) (Some (Some "md")) (Some RootLogger))
          [] (fun n => Z.of_nat n) 0.

(** What [Artifact()] builds in the examples, and an instance as [klass()]
    leaves it. *)
Definition ex_Artifact_new : Artifact :=
  mkArtifact "" None "" ex_doc None [] [].

Definition ex_new_state (k : HandlerClass) : State :=
  mkState (new k) [] (fun n => Z.of_nat n) 0.

Definition exclaim (s : string) : outcome string := Return (s ++ "!").

Definition failing_text (s : string) : outcome string :=
  Raise (Exception "bad input").

Definition same_dict (d : dict) : outcome dict := Return d.

Definition split_stub (s : string) : outcome dict := Return [("1", s)].

(** A storage for the examples: loading replaces the output by the cached
    one, generating leaves the artifact as it is. *)
Definition ex_load_dj (a : Artifact) : outcome Artifact :=
  Return (set_data_dict [("1", "from the cache")] a).

(** A storage whose cached record cannot be read. *)
Definition ex_corrupt_dj (a : Artifact) : outcome Artifact :=
  Raise (Exception "cached artifact cannot be read").

Definition ex_artifact_generate (a : Artifact) : Artifact := a.

Definition cache_hit (a : Artifact) : bool := true.

Definition cache_miss (a : Artifact) : bool := false.

(** ** Membership tests *)

Lemma str_in_In (x : string) (l : list string) : str_in x l = true <-> In x l.
Proof.
  unfold str_in. rewrite existsb_exists. split.
  - intros [y [Hy Heq]]. apply String.eqb_eq in Heq. now subst.
  - intros H. exists x. split; [assumption | apply String.eqb_refl].
Qed.

Lemma dict_get_set (k v : string) (d : dict) : dict_get k (dict_set k v d) = Some v.
Proof.
  induction d as [| [k' v'] d IH]; simpl.
  - now rewrite String.eqb_refl.
  - destruct (String.eqb k' k) eqn:E; simpl.
    + now rewrite String.eqb_refl.
    + now rewrite E.
Qed.

(** ** Properties of setup *)

Lemma with_artifact_same (a : Artifact) (h : Handler) :
  artifact h = Some a -> with_artifact a h = h.
Proof. destruct h; simpl; intros ->; reflexivity. Qed.

Lemma the_artifact_run (h : Handler) (a : Artifact) :
  artifact h = Some a -> the_artifact h = (Return a, h).
Proof. intros Ha. unfold the_artifact, bind, get, ret. now rewrite Ha. Qed.

Lemma update_artifact_run (f : Artifact -> Artifact) (h : Handler) (a : Artifact) :
  artifact h = Some a ->
  update_artifact f h = (Return tt, with_artifact (f a) h).
Proof.
  intros Ha. unfold update_artifact, bind. now rewrite (the_artifact_run h a Ha).
Qed.

(** The loop of lines 43-45 folds [pick] over the produced extensions. *)
Lemma negotiation_loop (accepted produced : list string) :
  forall (h : Handler) (a : Artifact),
    artifact h = Some a ->
    for_each produced
             (fun e => if str_in e accepted
                       then update_artifact (set_ext (Some e))
                       else ret tt) h
    = (Return tt, with_artifact (fold_left (pick accepted) produced a) h).
Proof.
  induction produced as [| e produced IH]; intros h a Ha.
  - simpl. unfold ret. now rewrite with_artifact_same.
  - cbn [for_each fold_left]. unfold bind at 1. unfold pick at 2.
    destruct (str_in e accepted).
    + rewrite (update_artifact_run _ h a Ha).
      rewrite (IH (with_artifact (set_ext (Some e) a) h) _ eq_refl).
      reflexivity.
    + unfold ret at 1. now apply IH.
Qed.

Lemma scan_from_some (accepted produced : list string) :
  forall e : string,
    fold_left (fun acc x => if str_in x accepted then Some x else acc)
              produced (Some e)
    = match last_match produced accepted with
      | Some x => Some x
      | None => Some e
      end.
Proof.
  unfold last_match.
  induction produced as [| x produced IH]; intros e; simpl.
  - reflexivity.
  - destruct (str_in x accepted).
    + rewrite (IH x). now destruct (fold_left _ produced None).
    + apply IH.
Qed.

(** After the loop the artifact holds the last matching entry, or what it held
    before when nothing matches. *)
Lemma fold_pick_ext (accepted produced : list string) :
  forall a : Artifact,
    ext (fold_left (pick accepted) produced a)
    = match last_match produced accepted with
      | Some e => Some e
      | None => ext a
      end.
Proof.
  induction produced as [| x produced IH]; intros a.
  - reflexivity.
  - cbn [fold_left]. rewrite IH. unfold last_match. cbn [fold_left].
    unfold pick. destruct (str_in x accepted).
    + rewrite scan_from_some. unfold last_match.
      now destruct (fold_left _ produced None).
    + reflexivity.
Qed.

Lemma last_match_none (accepted produced : list string) :
  (forall e, In e produced -> str_in e accepted = false) ->
  last_match produced accepted = None.
Proof.
  unfold last_match. induction produced as [| x produced IH]; intros H.
  - reflexivity.
  - cbn [fold_left]. rewrite (H x (or_introl eq_refl)).
    apply IH. intros e He. apply H. now right.
Qed.

Section SetupProperties.

Variable Artifact_setup : Doc -> string -> HandlerClass -> option Artifact -> Artifact.
Variable hash_of : Artifact -> string.
Variable log_has_getChild : bool.

Local Abbreviation run_setup := (setup Artifact_setup hash_of log_has_getChild).
Local Abbreviation checked_at := (checked Artifact_setup).
Local Abbreviation finished_with := (finished hash_of log_has_getChild).

Lemma setup_unaccepted k doc artifact_key p next_handler :
  accepts k (ext p) = false ->
  run_setup k doc artifact_key (Some p) next_handler
  = (Raise (UnsupportedInputFormat (ext p) (INPUT_EXTENSIONS k)),
     checked_at k doc artifact_key p next_handler).
Proof.
  unfold accepts. intros H. apply orb_false_elim in H as [H1 H2].
  unfold setup, setup_body, checked.
  destruct next_handler; cbn; rewrite H1, H2; reflexivity.
Qed.

Lemma setup_passthrough k doc artifact_key p next_handler :
  accepts k (ext p) = true ->
  str_in ".*" (OUTPUT_EXTENSIONS k) = true ->
  let h := finished_with k doc p
             (set_ext (ext p)
                (named_for next_handler (Artifact_setup doc artifact_key k (Some p)))) in
  run_setup k doc artifact_key (Some p) next_handler = (Return h, h).
Proof.
  intros H Hout h. unfold accepts in H. subst h.
  assert (Hc : negb (py_in (ext p) (INPUT_EXTENSIONS k))
               && negb (str_in ".*" (INPUT_EXTENSIONS k)) = false).
  { rewrite <- negb_orb, H. reflexivity. }
  unfold setup, setup_body, finished.
  destruct next_handler; cbn; rewrite Hc; cbn; rewrite Hout; reflexivity.
Qed.

Lemma setup_negotiated k doc artifact_key p nh :
  accepts k (ext p) = true ->
  str_in ".*" (OUTPUT_EXTENSIONS k) = false ->
  str_in ".*" (INPUT_EXTENSIONS nh) = false ->
  let a := fold_left (pick (INPUT_EXTENSIONS nh)) (OUTPUT_EXTENSIONS k)
             (named_for (Some nh) (Artifact_setup doc artifact_key k (Some p))) in
  run_setup k doc artifact_key (Some p) (Some nh)
  = if truthy (ext a)
    then (Return (finished_with k doc p a), finished_with k doc p a)
    else (Raise NoCompatibleFormat,
          with_artifact a (with_ext (ext p) (checked_at k doc artifact_key p (Some nh)))).
Proof.
  intros H Hout Hnext a. unfold accepts in H.
  assert (Hc : negb (py_in (ext p) (INPUT_EXTENSIONS k))
               && negb (str_in ".*" (INPUT_EXTENSIONS k)) = false).
  { rewrite <- negb_orb, H. reflexivity. }
  unfold setup, setup_body, finished, checked.
  cbn. rewrite Hc. cbn. rewrite Hout, Hnext. cbn.
  unfold bind.
  erewrite negotiation_loop by reflexivity.
  cbn. unfold artifact_ext. subst a. cbn [named_for].
  destruct (truthy (ext _)); reflexivity.
Qed.

Lemma setup_default k doc artifact_key p next_handler :
  accepts k (ext p) = true ->
  str_in ".*" (OUTPUT_EXTENSIONS k) = false ->
  match next_handler with
  | Some nh => str_in ".*" (INPUT_EXTENSIONS nh) = true
  | None => True
  end ->
  run_setup k doc artifact_key (Some p) next_handler
  = match OUTPUT_EXTENSIONS k with
    | e :: _ =>
        let h := finished_with k doc p
                   (set_ext (Some e)
                      (named_for next_handler
                         (Artifact_setup doc artifact_key k (Some p)))) in
        (Return h, h)
    | [] =>
        (Raise (IndexError "list index out of range"),
         with_ext (ext p) (checked_at k doc artifact_key p next_handler))
    end.
Proof.
  intros H Hout Hnext. unfold accepts in H.
  assert (Hc : negb (py_in (ext p) (INPUT_EXTENSIONS k))
               && negb (str_in ".*" (INPUT_EXTENSIONS k)) = false).
  { rewrite <- negb_orb, H. reflexivity. }
  unfold setup, setup_body, finished, checked.
  destruct next_handler as [nh |]; cbn; rewrite Hc; cbn; rewrite Hout;
    [rewrite Hnext; cbn |];
    destruct (OUTPUT_EXTENSIONS k); reflexivity.
Qed.

Lemma unsupported_is_not_no_compatible e l :
  UnsupportedInputFormat e l <> NoCompatibleFormat.
Proof. unfold UnsupportedInputFormat, NoCompatibleFormat. cbn. discriminate. Qed.

(** With both sequences free of the wildcard and the input accepted, setup
    resolves the LAST produced extension that the next handler accepts. *)
Lemma setup_resolves_last_match k doc artifact_key p nh e :
  accepts k (ext p) = true ->
  str_in ".*" (OUTPUT_EXTENSIONS k) = false ->
  str_in ".*" (INPUT_EXTENSIONS nh) = false ->
  last_match (OUTPUT_EXTENSIONS k) (INPUT_EXTENSIONS nh) = Some e ->
  e <> "" ->
  exists h a,
    run_setup k doc artifact_key (Some p) (Some nh) = (Return h, h)
    /\ artifact h = Some a /\ ext a = Some e.
Proof.
  intros H Hout Hnext Hlast He.
  rewrite (setup_negotiated k doc artifact_key p nh H Hout Hnext).
  cbv zeta. rewrite fold_pick_ext, Hlast. cbn [truthy].
  apply String.eqb_neq in He. rewrite He. cbn [negb].
  eexists. eexists. split; [reflexivity |].
  split; [reflexivity |]. cbn. now rewrite fold_pick_ext, Hlast.
Qed.

(** C1, on the code: with produced extensions html, tex and a next handler
    that accepts tex, html, the spec's first-match rule selects html, and
    setup resolves tex, the last produced extension that is accepted. *)
Theorem setup_last_match_wins_example :
  spec_first_match ["html"; "tex"] ["tex"; "html"] = Some "html"
  /\ exists h a,
       run_setup (ex_class "A" [".*"] ["html"; "tex"]) ex_doc "intro.md|A"
                 (Some (ex_previous "md"))
                 (Some (ex_class "B" ["tex"; "html"] [".*"]))
       = (Return h, h)
       /\ artifact h = Some a /\ ext a = Some "tex".
Proof.
  split; [reflexivity |].
  apply setup_resolves_last_match; try reflexivity. discriminate.
Qed.

(** C2, amended: when the upstream extension is not accepted, setup raises
    UnsupportedInputFormat and returns no handler; the artifact has by then
    been built by Artifact.setup and attached to the instance, with the
    next handler's name when there is one, and nothing else is set on
    it: the instance has no extension and no logger. *)
Theorem setup_unsupported_after_artifact_attached
        k doc artifact_key p next_handler :
  accepts k (ext p) = false ->
  exists h,
    run_setup k doc artifact_key (Some p) next_handler
    = (Raise (UnsupportedInputFormat (ext p) (INPUT_EXTENSIONS k)), h)
    /\ artifact h
       = Some (named_for next_handler
                         (Artifact_setup doc artifact_key k (Some p)))
    /\ h_doc h = Some doc /\ h_ext h = None /\ log h = None.
Proof.
  intros H. rewrite (setup_unaccepted k doc artifact_key p next_handler H).
  eexists. split; [reflexivity |].
  destruct next_handler; cbn; repeat split; reflexivity.
Qed.

(** C6: setup raises UnsupportedInputFormat exactly when the upstream
    extension is not in INPUT_EXTENSIONS and INPUT_EXTENSIONS does not
    contain the wildcard. *)
Theorem setup_unsupported_iff k doc artifact_key p next_handler :
  (exists e l,
      fst (run_setup k doc artifact_key (Some p) next_handler)
      = Raise (UnsupportedInputFormat e l))
  <-> (py_in (ext p) (INPUT_EXTENSIONS k) = false
       /\ str_in ".*" (INPUT_EXTENSIONS k) = false).
Proof.
  split.
  - intros [e [l Hraise]].
    destruct (accepts k (ext p)) eqn:Hacc.
    + exfalso.
      destruct (str_in ".*" (OUTPUT_EXTENSIONS k)) eqn:Hout.
      * rewrite (setup_passthrough k doc artifact_key p next_handler Hacc Hout)
          in Hraise.
        discriminate Hraise.
      * assert (Hcases :
                  (exists nh, next_handler = Some nh
                              /\ str_in ".*" (INPUT_EXTENSIONS nh) = false)
                  \/ match next_handler with
                     | Some nh => str_in ".*" (INPUT_EXTENSIONS nh) = true
                     | None => True
                     end).
        { destruct next_handler as [nh |]; [| now right].
          destruct (str_in ".*" (INPUT_EXTENSIONS nh)) eqn:E;
            [now right | left; now exists nh]. }
        destruct Hcases as [[nh [-> Hnext]] | Hnext].
        -- rewrite (setup_negotiated k doc artifact_key p nh Hacc Hout Hnext)
            in Hraise.
           cbv zeta in Hraise.
           destruct (truthy (ext _)); cbn [fst] in Hraise; [discriminate |].
           apply (unsupported_is_not_no_compatible e l). congruence.
        -- rewrite (setup_default k doc artifact_key p next_handler
                      Hacc Hout Hnext) in Hraise.
           destruct (OUTPUT_EXTENSIONS k); cbn in Hraise; discriminate.
    + now apply orb_false_elim in Hacc.
  - intros [H1 H2]. exists (ext p), (INPUT_EXTENSIONS k).
    rewrite setup_unaccepted; [reflexivity |].
    unfold accepts. now rewrite H1, H2.
Qed.

(** C7: when OUTPUT_EXTENSIONS contains the wildcard, setup (on an accepted
    upstream extension) returns a handler whose artifact has the upstream
    extension, whatever the next handler is. *)
Theorem setup_wildcard_passthrough k doc artifact_key p next_handler :
  str_in ".*" (OUTPUT_EXTENSIONS k) = true ->
  accepts k (ext p) = true ->
  exists h a,
    run_setup k doc artifact_key (Some p) next_handler = (Return h, h)
    /\ artifact h = Some a /\ ext a = ext p /\ h_ext h = Some (ext p).
Proof.
  intros Hout Hacc.
  rewrite (setup_passthrough k doc artifact_key p next_handler Hacc Hout).
  cbv zeta. eexists. eexists. split; [reflexivity |].
  split; [reflexivity |]. split; reflexivity.
Qed.

(** C8, amended: with an accepted upstream extension, no wildcard in
    OUTPUT_EXTENSIONS, a next handler without the wildcard in its
    INPUT_EXTENSIONS, and an artifact that Artifact.setup built without an
    extension, setup raises NoCompatibleFormat when no produced extension
    is accepted by the next handler. *)
Theorem setup_no_compatible_format k doc artifact_key p nh :
  accepts k (ext p) = true ->
  str_in ".*" (OUTPUT_EXTENSIONS k) = false ->
  str_in ".*" (INPUT_EXTENSIONS nh) = false ->
  truthy (ext (Artifact_setup doc artifact_key k (Some p))) = false ->
  (forall e, In e (OUTPUT_EXTENSIONS k) ->
             str_in e (INPUT_EXTENSIONS nh) = false) ->
  fst (run_setup k doc artifact_key (Some p) (Some nh))
  = Raise NoCompatibleFormat.
Proof.
  intros Hacc Hout Hnext Hfresh Hnone.
  rewrite (setup_negotiated k doc artifact_key p nh Hacc Hout Hnext).
  cbv zeta. rewrite fold_pick_ext, (last_match_none _ _ Hnone).
  cbn [named_for set_next_handler_name ext].
  now rewrite Hfresh.
Qed.

End SetupProperties.

(** ** Properties of process *)

Section ProcessProperties.

Ltac open_state st :=
  destruct st as [[k d ar e l] c clk r]; cbn in *; subst.

Ltac run_process :=
  unfold process, check_unused, call, on_self, update_artifact, the_artifact,
    bind, get, modify, ret, raise, lift;
  cbn.

(** C5: a class that defines none of the three convenience methods: process
    returns (the name "process"), and the artifact's data_dict is its
    input_data_dict, which is unchanged; no convenience method is called. *)
Theorem process_identity st a :
  process_text (klass (self st)) = None ->
  process_dict (klass (self st)) = None ->
  process_text_to_dict (klass (self st)) = None ->
  artifact (self st) = Some a ->
  exists st' a',
    process st = (Return "process", st')
    /\ artifact (self st') = Some a'
    /\ data_dict a' = input_data_dict a
    /\ input_data_dict a' = input_data_dict a
    /\ calls st' = calls st.
Proof.
  intros H1 H2 H3 Ha. open_state st. run_process. rewrite H1, H2, H3. cbn.
  eexists. eexists. repeat split.
Qed.

(** C3, amended: a class that defines more than one convenience method,
    on an instance that has its artifact.  When the first method found
    returns, process raises AmbiguousProcessMethod naming that method; when
    it raises, process raises its exception.  process never returns. *)
Theorem process_ambiguous st a :
  artifact (self st) = Some a ->
  1 < styles_implemented (klass (self st)) ->
  match selected_raises (klass (self st)) a with
  | None =>
      exists m st',
        selected_style (klass (self st)) = Some m
        /\ process st = (Raise (AmbiguousProcessMethod m), st')
  | Some e => exists st', process st = (Raise e, st')
  end.
Proof.
  intros Ha Hn. open_state st.
  destruct k as [n inp out al [pt |] [pd |] [pttd |]];
    unfold styles_implemented, selected_raises, selected_style in *;
    cbn in *; try lia; run_process.
  - destruct (pt (input_text a)); cbn; eauto.
  - destruct (pt (input_text a)); cbn; eauto.
  - destruct (pt (input_text a)); cbn; eauto.
  - destruct (pd (input_data_dict a)); cbn; eauto.
Qed.

(** C10: a class that defines process_text and process_dict.  When
    process_text returns, process raises AmbiguousProcessMethod with
    data_dict['1'] already set to what process_text returned, and leaves it
    so; when process_text raises, its exception is the one that process
    raises, and the artifact is untouched. *)
Theorem process_ambiguity_after_text_stored st a f g :
  process_text (klass (self st)) = Some f ->
  process_dict (klass (self st)) = Some g ->
  artifact (self st) = Some a ->
  match f (input_text a) with
  | Return output_text =>
      let a' := set_data_dict (dict_set "1" output_text (data_dict a)) a in
      process st
      = (Raise (AmbiguousProcessMethod "process_text"),
         mkState (with_artifact a' (self st))
                 (calls st ++ [CallProcessText (input_text a)])
                 (clock st) (reads st))
      /\ dict_get "1" (data_dict a') = Some output_text
  | Raise e =>
      process st
      = (Raise e,
         mkState (self st) (calls st ++ [CallProcessText (input_text a)])
                 (clock st) (reads st))
  end.
Proof.
  intros Hf Hg Ha. open_state st. run_process. rewrite Hf, Hg. cbn.
  destruct (f (input_text a)) as [output_text | e']; cbn.
  - split; [reflexivity | apply dict_get_set].
  - reflexivity.
Qed.

(** process keeps the instance's artifact attribute, whatever it ends with,
    and calls nothing but convenience methods. *)
Lemma process_keeps_artifact st a :
  artifact (self st) = Some a ->
  exists a', artifact (self (snd (process st))) = Some a'.
Proof.
  intros Ha. open_state st.
  destruct k as [n inp out al [pt |] [pd |] [pttd |]]; run_process;
    repeat match goal with
           | |- context [match ?f ?x with Return _ => _ | Raise _ => _ end] =>
               destruct (f x); cbn
           end; eauto.
Qed.

Lemma process_only_style_calls st :
  exists l, calls (snd (process st)) = (calls st ++ l)%list
            /\ forallb is_style_call l = true
            /\ clock (snd (process st)) = clock st
            /\ reads (snd (process st)) = reads st
            /\ klass (self (snd (process st))) = klass (self st).
Proof.
  open_state st.
  destruct k as [n inp out al [pt |] [pd |] [pttd |]]; run_process;
    destruct ar as [a |]; cbn;
    repeat match goal with
           | |- context [match ?f ?x with Return _ => _ | Raise _ => _ end] =>
               destruct (f x); cbn
           end;
    first [ exists []; rewrite app_nil_r; repeat split; reflexivity
          | eexists; repeat split; reflexivity ].
Qed.

End ProcessProperties.

(** ** Properties of generate_artifact *)

Lemma style_calls_persist_nothing (l : list Call) :
  forallb is_style_call l = true ->
  flat_map (fun c => match c with
                     | CallGenerate a => [a]
                     | _ => []
                     end) l = [].
Proof.
  induction l as [| c l IH]; cbn; [reflexivity |].
  intros H. apply andb_prop in H as [Hc Hl].
  destruct c; try discriminate; cbn; now apply IH.
Qed.

Lemma style_calls_report_nothing (l : list Call) :
  forallb is_style_call l = true ->
  flat_map (fun c => match c with
                     | CallLogTime row => [row_method row]
                     | _ => []
                     end) l = [].
Proof.
  induction l as [| c l IH]; cbn; [reflexivity |].
  intros H. apply andb_prop in H as [Hc Hl].
  destruct c; try discriminate; cbn; now apply IH.
Qed.

(** process hands nothing to [artifact.generate()] and reports nothing. *)
Lemma process_persists_nothing st :
  persisted (snd (process st)) = persisted st
  /\ reported (snd (process st)) = reported st.
Proof.
  destruct (process_only_style_calls st) as [l [Hl [Hs _]]].
  unfold persisted, reported. rewrite Hl, !flat_map_app.
  rewrite (style_calls_persist_nothing l Hs), (style_calls_report_nothing l Hs).
  now rewrite !app_nil_r.
Qed.

Section LifecycleProperties.

Variable dj_file_exists : Artifact -> bool.
Variable load_dj : Artifact -> outcome Artifact.
Variable artifact_generate : Artifact -> Artifact.

Local Abbreviation run_generate_artifact :=
  (generate_artifact dj_file_exists load_dj artifact_generate).

Ltac open_state st :=
  destruct st as [[k d ar e l] c clk r]; cbn -[process] in *; subst.

(** generate_artifact on a cache hit. *)
Lemma generate_artifact_cached st a :
  artifact (self st) = Some a ->
  dj_file_exists a = true ->
  run_generate_artifact st
  = match load_dj a with
    | Return loaded =>
        (Return loaded,
         mkState (with_artifact loaded (self st))
                 (calls st
                    ++ [CallLoadDj a;
                        CallLogTime
                          (mkRow (key loaded) (hashstring loaded)
                                 (doc_key (a_doc loaded))
                                 (name (klass (self st))) "cached"
                                 (clock st (reads st)) (clock st (S (reads st)))
                                 (clock st (S (reads st)) - clock st (reads st)))])
                 (clock st) (S (S (reads st))))
    | Raise e =>
        (Raise e,
         mkState (self st) (calls st ++ [CallLoadDj a]) (clock st) (S (reads st)))
    end.
Proof.
  intros Ha Hx. open_state st.
  unfold generate_artifact, log_time, time_time, call, lift, on_self,
    the_artifact, with_self, record_call, bind, get, modify, ret, raise.
  cbn. rewrite Hx. cbn. destruct (load_dj a) as [loaded | e']; cbn.
  - rewrite <- app_assoc. reflexivity.
  - reflexivity.
Qed.

(** generate_artifact on a cache miss, in terms of what process does. *)
Lemma generate_artifact_miss st a :
  artifact (self st) = Some a ->
  dj_file_exists a = false ->
  run_generate_artifact st
  = match process (snd (time_time st)) with
    | (Return _, st2) =>
        match artifact (self st2) with
        | Some a2 =>
            (Return (artifact_generate a2),
             mkState (with_artifact (artifact_generate a2) (self st2))
                     (calls st2
                        ++ [CallGenerate a2;
                            CallLogTime
                              (mkRow (key (artifact_generate a2))
                                     (hashstring (artifact_generate a2))
                                     (doc_key (a_doc (artifact_generate a2)))
                                     (name (klass (self st2))) "generated"
                                     (clock st (reads st))
                                     (clock st2 (reads st2))
                                     (clock st2 (reads st2)
                                      - clock st (reads st)))])
                     (clock st2) (S (reads st2)))
        | None => (Raise (AttributeError "artifact"), st2)
        end
    | (Raise e, st2) => (Raise e, st2)
    end.
Proof.
  intros Ha Hx. open_state st.
  unfold generate_artifact, generate, log_time, time_time, on_self,
    the_artifact, with_self, record_call, bind, get, modify, ret, raise.
  cbn -[process]. rewrite Hx.
  match goal with
  | |- context [process ?s] =>
      destruct (process s) as [[m | e'] [[k2 d2 [a2 |] e2 l2] c2 clk2 r2]]
  end; cbn -[process]; try reflexivity.
  rewrite <- app_assoc. reflexivity.
Qed.

(** C4, amended: on an instance that has its artifact, generate_artifact
    takes one of two paths.  On a cache hit [artifact.load_dj()] is called
    and no convenience method is: when it returns, the method reported is
    "cached"; when it raises, generate_artifact raises the same exception and
    nothing is reported.  On a miss process runs: when it returns, the
    artifact is handed to [artifact.generate()] and the method reported is
    "generated"; when it raises, generate_artifact raises the same exception,
    nothing is handed to [artifact.generate()] and nothing is reported. *)
Theorem generate_artifact_paths st a :
  artifact (self st) = Some a ->
  if dj_file_exists a
  then
    match load_dj a with
    | Return loaded =>
        exists st' row,
          run_generate_artifact st = (Return loaded, st')
          /\ artifact (self st') = Some loaded
          /\ calls st' = (calls st ++ [CallLoadDj a; CallLogTime row])%list
          /\ row_method row = "cached"
    | Raise e =>
        exists st',
          run_generate_artifact st = (Raise e, st')
          /\ self st' = self st
          /\ calls st' = (calls st ++ [CallLoadDj a])%list
    end
  else
    match process (snd (time_time st)) with
    | (Return _, st2) =>
        exists a2 st' row,
          artifact (self st2) = Some a2
          /\ run_generate_artifact st = (Return (artifact_generate a2), st')
          /\ calls st' = (calls st2 ++ [CallGenerate a2; CallLogTime row])%list
          /\ row_method row = "generated"
    | (Raise e, st2) =>
        run_generate_artifact st = (Raise e, st2)
        /\ persisted st2 = persisted st
        /\ reported st2 = reported st
    end.
Proof.
  intros Ha. destruct (dj_file_exists a) eqn:Hx.
  - rewrite (generate_artifact_cached st a Ha Hx).
    destruct (load_dj a) as [loaded | e].
    + eexists. eexists. split; [reflexivity |]. split; [reflexivity |].
      split; reflexivity.
    + eexists. split; [reflexivity |]. split; reflexivity.
  - rewrite (generate_artifact_miss st a Ha Hx).
    assert (Hk : exists a', artifact (self (snd (process (snd (time_time st)))))
                            = Some a').
    { apply (process_keeps_artifact _ a). exact Ha. }
    pose proof (process_persists_nothing (snd (time_time st))) as [Hp Hr].
    destruct (process (snd (time_time st))) as [[m | e] st2];
      cbn [snd] in Hk, Hp, Hr.
    + destruct Hk as [a2 Ha2]. rewrite Ha2.
      exists a2. eexists. eexists.
      split; [reflexivity |]. split; [reflexivity |]. split; reflexivity.
    + split; [reflexivity |]. split; assumption.
Qed.

(** C9: on a cache miss, when process raises, generate_artifact raises the
    same exception and nothing has been handed to [artifact.generate()];
    when process returns, exactly the artifact that process left is handed
    to it. *)
Theorem generate_artifact_persists_after_process st a :
  artifact (self st) = Some a ->
  dj_file_exists a = false ->
  match process (snd (time_time st)) with
  | (Raise e, st2) =>
      run_generate_artifact st = (Raise e, st2)
      /\ persisted (snd (run_generate_artifact st)) = persisted st
  | (Return _, st2) =>
      exists a2,
        artifact (self st2) = Some a2
        /\ fst (run_generate_artifact st) = Return (artifact_generate a2)
        /\ persisted (snd (run_generate_artifact st))
           = (persisted st ++ [a2])%list
  end.
Proof.
  intros Ha Hx.
  rewrite (generate_artifact_miss st a Ha Hx).
  assert (Hk : exists a', artifact (self (snd (process (snd (time_time st)))))
                          = Some a').
  { apply (process_keeps_artifact _ a). exact Ha. }
  pose proof (process_persists_nothing (snd (time_time st))) as [Hp _].
  destruct (process (snd (time_time st))) as [[m | e] st2];
    cbn [snd] in Hk, Hp.
  - destruct Hk as [a2 Ha2]. rewrite Ha2. exists a2.
    split; [reflexivity |]. split; [reflexivity |].
    cbn [snd]. unfold persisted in *. cbn [calls].
    rewrite flat_map_app, Hp. reflexivity.
  - split; [reflexivity |]. cbn [snd]. exact Hp.
Qed.

End LifecycleProperties.

(** ** The theorems at concrete inputs *)

Lemma append_length (s t : string) :
  String.length (s ++ t) = String.length s + String.length t.
Proof. induction s as [| c s IH]; cbn; [reflexivity | now rewrite IH]. Qed.

(** Markdown accepts md only; the upstream artifact is a py file.  setup
    raises UnsupportedInputFormat, and the instance it was working on has its
    artifact. *)
Lemma setup_unsupported_with_artifact_counterexample :
  accepts (ex_class "Markdown" ["md"] ["html"]) (ext (ex_previous "py")) = false
  /\ fst (setup ex_Artifact_setup ex_hash_of true
                (ex_class "Markdown" ["md"] ["html"]) ex_doc "intro.md|markdown"
                (Some (ex_previous "py")) None)
     = Raise (UnsupportedInputFormat (Some "py") ["md"])
  /\ artifact (snd (setup ex_Artifact_setup ex_hash_of true
                          (ex_class "Markdown" ["md"] ["html"]) ex_doc
                          "intro.md|markdown" (Some (ex_previous "py")) None))
     <> None.
Proof.
  split; [reflexivity |]. split; [reflexivity |]. cbn. discriminate.
Qed.

Lemma setup_unsupported_after_artifact_attached_witness :
  accepts (ex_class "Markdown" ["md"] ["html"]) (ext (ex_previous "py")) = false
  /\ exists h,
      setup ex_Artifact_setup ex_hash_of true
            (ex_class "Markdown" ["md"] ["html"]) ex_doc "intro.md|markdown"
            (Some (ex_previous "py")) (Some (ex_class "Latex" ["tex"] ["pdf"]))
      = (Raise (UnsupportedInputFormat (Some "py") ["md"]), h)
      /\ artifact h
         = Some (named_for (Some (ex_class "Latex" ["tex"] ["pdf"]))
                           (ex_Artifact_setup ex_doc "intro.md|markdown"
                              (ex_class "Markdown" ["md"] ["html"])
                              (Some (ex_previous "py"))))
      /\ h_doc h = Some ex_doc /\ h_ext h = None /\ log h = None.
Proof.
  split; [reflexivity |].
  apply (setup_unsupported_after_artifact_attached
           ex_Artifact_setup ex_hash_of true
           (ex_class "Markdown" ["md"] ["html"]) ex_doc "intro.md|markdown"
           (ex_previous "py") (Some (ex_class "Latex" ["tex"] ["pdf"]))).
  reflexivity.
Defined.

(** The spec's wildcard example: accepted and produced extensions are both
    the wildcard, the upstream extension is py. *)
Lemma setup_wildcard_passthrough_witness :
  str_in ".*" (OUTPUT_EXTENSIONS DexyHandler) = true
  /\ accepts DexyHandler (ext (ex_previous "py")) = true
  /\ exists h a,
      setup ex_Artifact_setup ex_hash_of true DexyHandler ex_doc "intro.md|dexy"
            (Some (ex_previous "py")) (Some (ex_class "Latex" ["tex"] ["pdf"]))
      = (Return h, h)
      /\ artifact h = Some a /\ ext a = Some "py" /\ h_ext h = Some (Some "py").
Proof.
  split; [reflexivity |]. split; [reflexivity |].
  apply (setup_wildcard_passthrough
           ex_Artifact_setup ex_hash_of true DexyHandler ex_doc "intro.md|dexy"
           (ex_previous "py") (Some (ex_class "Latex" ["tex"] ["pdf"])));
    reflexivity.
Defined.

(** Markdown accepts md only and produces html; Latex accepts tex only; the
    upstream artifact is a py file.  No produced extension is accepted
    downstream, and setup raises UnsupportedInputFormat, not
    NoCompatibleFormat. *)
Lemma setup_no_compatible_format_counterexample :
  str_in ".*" ["html"] = false
  /\ str_in ".*" ["tex"] = false
  /\ spec_first_match ["html"] ["tex"] = None
  /\ fst (setup ex_Artifact_setup ex_hash_of true
                (ex_class "Markdown" ["md"] ["html"]) ex_doc "intro.md|markdown"
                (Some (ex_previous "py")) (Some (ex_class "Latex" ["tex"] ["pdf"])))
     <> Raise NoCompatibleFormat.
Proof.
  split; [reflexivity |]. split; [reflexivity |]. split; [reflexivity |].
  cbn. discriminate.
Qed.

Lemma setup_no_compatible_format_witness :
  accepts (ex_class "Markdown" ["md"] ["html"]) (ext (ex_previous "md")) = true
  /\ str_in ".*" ["html"] = false
  /\ str_in ".*" ["tex"] = false
  /\ fst (setup ex_Artifact_setup ex_hash_of true
                (ex_class "Markdown" ["md"] ["html"]) ex_doc "intro.md|markdown"
                (Some (ex_previous "md")) (Some (ex_class "Latex" ["tex"] ["pdf"])))
     = Raise NoCompatibleFormat.
Proof.
  split; [reflexivity |]. split; [reflexivity |]. split; [reflexivity |].
  apply (setup_no_compatible_format
           ex_Artifact_setup ex_hash_of true
           (ex_class "Markdown" ["md"] ["html"]) ex_doc "intro.md|markdown"
           (ex_previous "md") (ex_class "Latex" ["tex"] ["pdf"]));
    try reflexivity.
  intros e [<- | []]. reflexivity.
Defined.

(** DexyHandler itself defines no convenience method. *)
Lemma process_identity_witness :
  exists st' a',
    process (ex_state DexyHandler) = (Return "process", st')
    /\ artifact (self st') = Some a'
    /\ data_dict a' = [("1", "hello "); ("2", "world")]
    /\ input_data_dict a' = [("1", "hello "); ("2", "world")]
    /\ calls st' = [].
Proof.
  apply (process_identity (ex_state DexyHandler) ex_artifact); reflexivity.
Defined.

(** A stage whose process_text raises, and which also defines process_dict:
    process raises what process_text raised, not AmbiguousProcessMethod. *)
Lemma process_ambiguous_counterexample :
  1 < styles_implemented (ex_stage (Some failing_text) (Some same_dict) None)
  /\ fst (process (ex_state (ex_stage (Some failing_text) (Some same_dict) None)))
     = Raise (Exception "bad input")
  /\ forall m,
      fst (process (ex_state (ex_stage (Some failing_text) (Some same_dict) None)))
      <> Raise (AmbiguousProcessMethod m).
Proof.
  split; [unfold styles_implemented; cbn; lia |]. split; [reflexivity |].
  intros m H. cbn in H. unfold AmbiguousProcessMethod in H.
  injection H as H. apply (f_equal String.length) in H.
  rewrite append_length in H. cbn in H. lia.
Qed.

Lemma process_ambiguous_witness :
  artifact (self (ex_state (ex_stage (Some exclaim) None (Some split_stub))))
  = Some ex_artifact
  /\ 1 < styles_implemented (ex_stage (Some exclaim) None (Some split_stub))
  /\ exists m st',
      selected_style (ex_stage (Some exclaim) None (Some split_stub)) = Some m
      /\ process (ex_state (ex_stage (Some exclaim) None (Some split_stub)))
         = (Raise (AmbiguousProcessMethod m), st').
Proof.
  split; [reflexivity |].
  split; [unfold styles_implemented; cbn; lia |].
  apply (process_ambiguous
           (ex_state (ex_stage (Some exclaim) None (Some split_stub)))
           ex_artifact eq_refl).
  unfold styles_implemented; cbn; lia.
Defined.

Lemma process_ambiguity_after_text_stored_witness :
  exists st',
    process (ex_state (ex_stage (Some exclaim) (Some same_dict) None))
    = (Raise (AmbiguousProcessMethod "process_text"), st')
    /\ option_map data_dict (artifact (self st')) = Some [("1", "hello world!")]
    /\ calls st' = [CallProcessText "hello world"].
Proof.
  destruct (process_ambiguity_after_text_stored
              (ex_state (ex_stage (Some exclaim) (Some same_dict) None))
              ex_artifact exclaim same_dict eq_refl eq_refl eq_refl)
    as [H _].
  eexists. split; [exact H |]. split; reflexivity.
Defined.

(** A stage that defines process_text and process_dict, on a cache miss:
    generate_artifact raises, nothing is handed to [artifact.generate()] and
    no method is reported. *)
Lemma generate_artifact_paths_counterexample :
  cache_miss ex_artifact = false
  /\ fst (generate_artifact cache_miss ex_load_dj ex_artifact_generate
            (ex_state (ex_stage (Some exclaim) (Some same_dict) None)))
     = Raise (AmbiguousProcessMethod "process_text")
  /\ persisted (snd (generate_artifact cache_miss ex_load_dj ex_artifact_generate
                       (ex_state (ex_stage (Some exclaim) (Some same_dict) None))))
     = []
  /\ reported (snd (generate_artifact cache_miss ex_load_dj ex_artifact_generate
                      (ex_state (ex_stage (Some exclaim) (Some same_dict) None))))
     = [].
Proof. repeat split. Qed.

(** A cache hit whose record cannot be read. *)
Lemma generate_artifact_paths_witness :
  artifact (self (ex_state (ex_stage (Some exclaim) None None)))
  = Some ex_artifact
  /\ exists st',
      generate_artifact cache_hit ex_corrupt_dj ex_artifact_generate
        (ex_state (ex_stage (Some exclaim) None None))
      = (Raise (Exception "cached artifact cannot be read"), st')
      /\ self st' = self (ex_state (ex_stage (Some exclaim) None None))
      /\ calls st'
         = (calls (ex_state (ex_stage (Some exclaim) None None))
              ++ [CallLoadDj ex_artifact])%list.
Proof.
  split; [reflexivity |].
  exact (generate_artifact_paths cache_hit ex_corrupt_dj ex_artifact_generate
           (ex_state (ex_stage (Some exclaim) None None)) ex_artifact eq_refl).
Defined.

Lemma generate_artifact_persists_after_process_witness :
  artifact (self (ex_state (ex_stage (Some exclaim) (Some same_dict) None)))
  = Some ex_artifact
  /\ cache_miss ex_artifact = false
  /\ fst (generate_artifact cache_miss ex_load_dj ex_artifact_generate
            (ex_state (ex_stage (Some exclaim) (Some same_dict) None)))
     = Raise (AmbiguousProcessMethod "process_text")
  /\ persisted (snd (generate_artifact cache_miss ex_load_dj ex_artifact_generate
                       (ex_state (ex_stage (Some exclaim) (Some same_dict) None))))
     = persisted (ex_state (ex_stage (Some exclaim) (Some same_dict) None)).
Proof.
  split; [reflexivity |]. split; [reflexivity |].
  destruct (generate_artifact_persists_after_process
              cache_miss ex_load_dj ex_artifact_generate
              (ex_state (ex_stage (Some exclaim) (Some same_dict) None))
              ex_artifact eq_refl eq_refl) as [H1 H2].
  split; [now rewrite H1 | exact H2].
Defined.

(** ** More on the extension negotiation *)

Lemma last_match_app (accepted front : list string) (x : string) :
  str_in x accepted = true ->
  last_match (front ++ [x]) accepted = Some x.
Proof.
  intros Hx. unfold last_match. rewrite fold_left_app. cbn. now rewrite Hx.
Qed.

Lemma last_match_some (accepted produced : list string) (x : string) :
  last_match produced accepted = Some x ->
  In x produced /\ str_in x accepted = true.
Proof.
  unfold last_match.
  induction produced as [| y produced IH] using rev_ind; cbn.
  - discriminate.
  - rewrite fold_left_app. cbn. destruct (str_in y accepted) eqn:Hy.
    + intros [= <-]. split; [apply in_or_app; right; now left | exact Hy].
    + intros H. destruct (IH H) as [Hin Hacc].
      split; [apply in_or_app; now left | exact Hacc].
Qed.

Lemma last_match_found (accepted produced : list string) (x : string) :
  In x produced -> str_in x accepted = true ->
  exists y, last_match produced accepted = Some y.
Proof.
  intros Hin Hx. destruct (last_match produced accepted) as [y |] eqn:E.
  - now exists y.
  - exfalso. revert Hin Hx. unfold last_match in E.
    induction produced as [| z produced IH] using rev_ind; [intros [] |].
    rewrite fold_left_app in E. cbn in E.
    destruct (str_in z accepted) eqn:Hz; [discriminate |].
    intros Hin Hx. apply in_app_or in Hin as [Hin | [<- | []]].
    + now apply IH.
    + congruence.
Qed.

Lemma spec_first_match_some (accepted produced : list string) (x : string) :
  spec_first_match produced accepted = Some x ->
  In x produced /\ str_in x accepted = true.
Proof. unfold spec_first_match. apply find_some. Qed.

(** The loop of lines 43-45 writes to [ext] only. *)
Lemma fold_pick_keeps (accepted produced : list string) :
  forall a : Artifact,
    key (fold_left (pick accepted) produced a) = key a
    /\ hashstring (fold_left (pick accepted) produced a) = hashstring a
    /\ a_doc (fold_left (pick accepted) produced a) = a_doc a
    /\ next_handler_name (fold_left (pick accepted) produced a)
       = next_handler_name a
    /\ input_data_dict (fold_left (pick accepted) produced a)
       = input_data_dict a
    /\ data_dict (fold_left (pick accepted) produced a) = data_dict a.
Proof.
  induction produced as [| x produced IH]; intros a; cbn [fold_left].
  - repeat split.
  - destruct (IH (pick accepted a x)) as (H1 & H2 & H3 & H4 & H5 & H6).
    rewrite H1, H2, H3, H4, H5, H6. unfold pick.
    destruct (str_in x accepted); repeat split.
Qed.

Section MoreSetupProperties.

Variable Artifact_setup : Doc -> string -> HandlerClass -> option Artifact -> Artifact.
Variable hash_of : Artifact -> string.
Variable log_has_getChild : bool.

Local Abbreviation run_setup := (setup Artifact_setup hash_of log_has_getChild).
Local Abbreviation finished_with := (finished hash_of log_has_getChild).

(** The branch setup takes, for an upstream artifact [p]. *)
Lemma setup_branches k doc artifact_key p next_handler :
  let fresh := named_for next_handler (Artifact_setup doc artifact_key k (Some p)) in
  (accepts k (ext p) = false
   /\ fst (run_setup k doc artifact_key (Some p) next_handler)
      = Raise (UnsupportedInputFormat (ext p) (INPUT_EXTENSIONS k)))
  \/ (accepts k (ext p) = true
      /\ exists res : outcome Artifact,
          match res with
          | Return a0 =>
              run_setup k doc artifact_key (Some p) next_handler
              = (Return (finished_with k doc p a0), finished_with k doc p a0)
          | Raise e =>
              fst (run_setup k doc artifact_key (Some p) next_handler) = Raise e
          end
          /\ res
             = if str_in ".*" (OUTPUT_EXTENSIONS k)
               then Return (set_ext (ext p) fresh)
               else
                 match next_handler with
                 | Some nh =>
                     if str_in ".*" (INPUT_EXTENSIONS nh)
                     then
                       match OUTPUT_EXTENSIONS k with
                       | e :: _ => Return (set_ext (Some e) fresh)
                       | [] => Raise (IndexError "list index out of range")
                       end
                     else
                       if truthy (ext (fold_left (pick (INPUT_EXTENSIONS nh))
                                                 (OUTPUT_EXTENSIONS k) fresh))
                       then Return (fold_left (pick (INPUT_EXTENSIONS nh))
                                              (OUTPUT_EXTENSIONS k) fresh)
                       else Raise NoCompatibleFormat
                 | None =>
                     match OUTPUT_EXTENSIONS k with
                     | e :: _ => Return (set_ext (Some e) fresh)
                     | [] => Raise (IndexError "list index out of range")
                     end
                 end).
Proof.
  intros fresh. destruct (accepts k (ext p)) eqn:Hacc.
  - right. split; [reflexivity |].
    destruct (str_in ".*" (OUTPUT_EXTENSIONS k)) eqn:Hout.
    + eexists. split; [| reflexivity].
      apply (setup_passthrough _ _ _ k doc artifact_key p next_handler Hacc Hout).
    + destruct next_handler as [nh |].
      * destruct (str_in ".*" (INPUT_EXTENSIONS nh)) eqn:Hnext.
        -- eexists. split; [| reflexivity].
           rewrite (setup_default _ _ _ k doc artifact_key p (Some nh) Hacc Hout Hnext).
           destruct (OUTPUT_EXTENSIONS k); reflexivity.
        -- eexists. split; [| reflexivity].
           rewrite (setup_negotiated _ _ _ k doc artifact_key p nh Hacc Hout Hnext).
           cbv zeta. subst fresh.
           destruct (truthy (ext _)); reflexivity.
      * eexists. split; [| reflexivity].
        rewrite (setup_default _ _ _ k doc artifact_key p None Hacc Hout I).
        destruct (OUTPUT_EXTENSIONS k); reflexivity.
  - left. split; [reflexivity |].
    now rewrite (setup_unaccepted _ _ _ k doc artifact_key p next_handler Hacc).
Qed.

(** X1: called without a previous artifact (the default of the parameter),
    setup raises AttributeError at line 32, after the artifact has been built
    and attached. *)
Theorem setup_without_previous_artifact k doc artifact_key next_handler :
  exists h,
    run_setup k doc artifact_key None next_handler
    = (Raise (AttributeError "ext"), h)
    /\ artifact h
       = Some (named_for next_handler (Artifact_setup doc artifact_key k None))
    /\ h_ext h = None /\ log h = None.
Proof.
  unfold setup, setup_body.
  destruct next_handler; cbn; eexists; repeat split.
Qed.

(** X2: without the wildcard in OUTPUT_EXTENSIONS, and with no next handler or
    one that accepts the wildcard, setup resolves the first entry of
    OUTPUT_EXTENSIONS. *)
Theorem setup_takes_first_output k doc artifact_key p next_handler e rest :
  accepts k (ext p) = true ->
  str_in ".*" (OUTPUT_EXTENSIONS k) = false ->
  OUTPUT_EXTENSIONS k = e :: rest ->
  match next_handler with
  | Some nh => str_in ".*" (INPUT_EXTENSIONS nh) = true
  | None => True
  end ->
  exists h a,
    run_setup k doc artifact_key (Some p) next_handler = (Return h, h)
    /\ artifact h = Some a /\ ext a = Some e.
Proof.
  intros Hacc Hout He Hnext.
  rewrite (setup_default _ _ _ k doc artifact_key p next_handler Hacc Hout Hnext).
  rewrite He. cbv zeta. eexists. eexists.
  split; [reflexivity |]. split; reflexivity.
Qed.

(** X3: a class whose OUTPUT_EXTENSIONS is empty, on an accepted upstream
    extension and an artifact built without extension: setup never returns.
    It raises IndexError at line 50 when there is no next handler or the
    next handler accepts the wildcard, and NoCompatibleFormat otherwise. *)
Theorem setup_empty_outputs k doc artifact_key p next_handler :
  accepts k (ext p) = true ->
  OUTPUT_EXTENSIONS k = [] ->
  truthy (ext (Artifact_setup doc artifact_key k (Some p))) = false ->
  fst (run_setup k doc artifact_key (Some p) next_handler)
  = Raise (match next_handler with
           | Some nh =>
               if str_in ".*" (INPUT_EXTENSIONS nh)
               then IndexError "list index out of range"
               else NoCompatibleFormat
           | None => IndexError "list index out of range"
           end).
Proof.
  intros Hacc Hempty Hfresh.
  assert (Hout : str_in ".*" (OUTPUT_EXTENSIONS k) = false)
    by now rewrite Hempty.
  destruct next_handler as [nh |].
  - destruct (str_in ".*" (INPUT_EXTENSIONS nh)) eqn:Hnext.
    + rewrite (setup_default _ _ _ k doc artifact_key p (Some nh) Hacc Hout Hnext).
      now rewrite Hempty.
    + rewrite (setup_negotiated _ _ _ k doc artifact_key p nh Hacc Hout Hnext).
      cbv zeta. rewrite Hempty. cbn [fold_left named_for set_next_handler_name ext].
      now rewrite Hfresh.
  - rewrite (setup_default _ _ _ k doc artifact_key p None Hacc Hout I).
    now rewrite Hempty.
Qed.

(** X4: without the wildcard in OUTPUT_EXTENSIONS and with an artifact built
    without extension, whenever setup returns, the resolved extension is an
    entry of OUTPUT_EXTENSIONS (so it is not the wildcard), and when the next
    handler does not accept the wildcard it is a non-empty entry of the next
    handler's INPUT_EXTENSIONS too. *)
Theorem setup_resolved_extension_is_declared k doc artifact_key p next_handler h :
  str_in ".*" (OUTPUT_EXTENSIONS k) = false ->
  truthy (ext (Artifact_setup doc artifact_key k (Some p))) = false ->
  fst (run_setup k doc artifact_key (Some p) next_handler) = Return h ->
  exists a e,
    artifact h = Some a /\ ext a = Some e
    /\ In e (OUTPUT_EXTENSIONS k) /\ e <> ".*"
    /\ match next_handler with
       | Some nh =>
           str_in ".*" (INPUT_EXTENSIONS nh) = false ->
           In e (INPUT_EXTENSIONS nh) /\ e <> ""
       | None => True
       end.
Proof.
  intros Hout Hfresh Hret.
  assert (Hnw : forall e, In e (OUTPUT_EXTENSIONS k) -> e <> ".*").
  { intros e He ->. apply str_in_In in He. congruence. }
  destruct next_handler as [nh |].
  - destruct (str_in ".*" (INPUT_EXTENSIONS nh)) eqn:Hnext.
    + destruct (accepts k (ext p)) eqn:Hacc.
      * rewrite (setup_default _ _ _ k doc artifact_key p (Some nh) Hacc Hout Hnext)
          in Hret.
        destruct (OUTPUT_EXTENSIONS k) as [| e rest] eqn:He;
          cbn in Hret; [discriminate |].
        injection Hret as <-. eexists. exists e.
        split; [reflexivity |]. split; [reflexivity |].
        split; [now left |]. split; [apply Hnw; now left | discriminate].
      * rewrite (setup_unaccepted _ _ _ k doc artifact_key p (Some nh) Hacc) in Hret.
        discriminate.
    + destruct (accepts k (ext p)) eqn:Hacc.
      * rewrite (setup_negotiated _ _ _ k doc artifact_key p nh Hacc Hout Hnext)
          in Hret.
        cbv zeta in Hret.
        destruct (truthy (ext (fold_left _ _ _))) eqn:Htruthy;
          cbn [fst] in Hret; [| discriminate].
        injection Hret as <-.
        rewrite fold_pick_ext in Htruthy.
        destruct (last_match (OUTPUT_EXTENSIONS k) (INPUT_EXTENSIONS nh))
          as [e |] eqn:Hlast.
        -- destruct (last_match_some _ _ _ Hlast) as [Hin Hacc'].
           eexists. exists e. split; [reflexivity |].
           split; [cbn; now rewrite fold_pick_ext, Hlast |].
           split; [exact Hin |]. split; [now apply Hnw |].
           intros _. split; [now apply str_in_In |].
           intros ->. discriminate Htruthy.
        -- cbn [named_for set_next_handler_name ext] in Htruthy. congruence.
      * rewrite (setup_unaccepted _ _ _ k doc artifact_key p (Some nh) Hacc) in Hret.
        discriminate.
  - destruct (accepts k (ext p)) eqn:Hacc.
    + rewrite (setup_default _ _ _ k doc artifact_key p None Hacc Hout I) in Hret.
      destruct (OUTPUT_EXTENSIONS k) as [| e rest] eqn:He;
        cbn in Hret; [discriminate |].
      injection Hret as <-. eexists. exists e.
      split; [reflexivity |]. split; [reflexivity |].
      split; [now left |]. split; [apply Hnw; now left | exact I].
    + rewrite (setup_unaccepted _ _ _ k doc artifact_key p None Hacc) in Hret.
      discriminate.
Qed.

(** X5: when one produced extension only is accepted by the next handler
    (and it is not the empty string), setup resolves the entry the spec's
    first-match rule selects. *)
Theorem setup_first_match_when_unique k doc artifact_key p nh e :
  accepts k (ext p) = true ->
  str_in ".*" (OUTPUT_EXTENSIONS k) = false ->
  str_in ".*" (INPUT_EXTENSIONS nh) = false ->
  spec_first_match (OUTPUT_EXTENSIONS k) (INPUT_EXTENSIONS nh) = Some e ->
  (forall e', In e' (OUTPUT_EXTENSIONS k) ->
              str_in e' (INPUT_EXTENSIONS nh) = true -> e' = e) ->
  e <> "" ->
  exists h a,
    run_setup k doc artifact_key (Some p) (Some nh) = (Return h, h)
    /\ artifact h = Some a /\ ext a = Some e.
Proof.
  intros Hacc Hout Hnext Hfirst Huniq He.
  destruct (spec_first_match_some _ _ _ Hfirst) as [Hin Hmatch].
  destruct (last_match_found _ _ _ Hin Hmatch) as [y Hy].
  destruct (last_match_some _ _ _ Hy) as [Hyin Hymatch].
  rewrite (Huniq y Hyin Hymatch) in Hy.
  now apply setup_resolves_last_match.
Qed.

(** X6: the test of line 47 takes the empty string for "no extension found":
    when the last entry of OUTPUT_EXTENSIONS is the empty string and the next
    handler accepts it, setup raises NoCompatibleFormat, whatever the
    entries before it are. *)
Theorem setup_empty_extension_counts_as_none k doc artifact_key p nh front :
  accepts k (ext p) = true ->
  str_in ".*" (OUTPUT_EXTENSIONS k) = false ->
  str_in ".*" (INPUT_EXTENSIONS nh) = false ->
  OUTPUT_EXTENSIONS k = (front ++ [""])%list ->
  str_in "" (INPUT_EXTENSIONS nh) = true ->
  fst (run_setup k doc artifact_key (Some p) (Some nh)) = Raise NoCompatibleFormat.
Proof.
  intros Hacc Hout Hnext Hlast Hempty.
  rewrite (setup_negotiated _ _ _ k doc artifact_key p nh Hacc Hout Hnext).
  cbv zeta. rewrite fold_pick_ext, Hlast, (last_match_app _ front "" Hempty).
  reflexivity.
Qed.

(** X7: when setup returns, the handler is the state it ends in; the
    upstream extension was accepted; the handler has its class, the doc, the
    upstream extension as [ext] and its logger.  Its artifact is [a0] with
    the fingerprint of [a0] stored in it, where [a0] is the artifact that
    Artifact.setup built, changed in two attributes only: the resolved
    extension, and the next handler's name when there is one.  So the
    fingerprint is computed from the artifact that carries the resolved
    extension, and setup changes nothing else on the artifact. *)
Theorem setup_returned_handler k doc artifact_key p next_handler h :
  fst (run_setup k doc artifact_key (Some p) next_handler) = Return h ->
  snd (run_setup k doc artifact_key (Some p) next_handler) = h
  /\ accepts k (ext p) = true
  /\ klass h = k /\ h_doc h = Some doc /\ h_ext h = Some (ext p)
  /\ log h = Some (if log_has_getChild then ChildLogger (name k) else RootLogger)
  /\ exists resolved,
      let a0 :=
        set_ext resolved
          (named_for next_handler (Artifact_setup doc artifact_key k (Some p))) in
      artifact h = Some (set_hashstring_field (hash_of a0) a0).
Proof.
  intros Hret.
  destruct (setup_branches k doc artifact_key p next_handler)
    as [[_ Hraise] | [Hacc [res [Hres Hbranch]]]].
  - rewrite Hraise in Hret. discriminate.
  - destruct res as [a0 | e]; [| rewrite Hres in Hret; discriminate].
    rewrite Hres in Hret |- *. cbn [fst snd] in *. injection Hret as <-.
    split; [reflexivity |]. split; [exact Hacc |].
    split; [reflexivity |]. split; [reflexivity |].
    split; [reflexivity |]. split; [reflexivity |].
    exists (ext a0). cbv zeta. cbn [artifact finished set_hashstring].
    assert (Ha0 : a0 = set_ext (ext a0)
                         (named_for next_handler
                            (Artifact_setup doc artifact_key k (Some p)))).
    { destruct (str_in ".*" (OUTPUT_EXTENSIONS k)).
      - injection Hbranch as ->. reflexivity.
      - destruct next_handler as [nh |].
        + destruct (str_in ".*" (INPUT_EXTENSIONS nh)).
          * destruct (OUTPUT_EXTENSIONS k); [discriminate |].
            injection Hbranch as ->. reflexivity.
          * destruct (truthy _); [| discriminate].
            injection Hbranch as ->.
            destruct (fold_pick_keeps (INPUT_EXTENSIONS nh) (OUTPUT_EXTENSIONS k)
                        (named_for (Some nh)
                           (Artifact_setup doc artifact_key k (Some p))))
              as (H1 & H2 & H3 & H4 & H5 & H6).
            destruct (fold_left _ _ _) as [k1 e1 hs1 d1 n1 i1 o1].
            cbn in H1, H2, H3, H4, H5, H6. subst. reflexivity.
        + destruct (OUTPUT_EXTENSIONS k); [discriminate |].
          injection Hbranch as ->. reflexivity. }
    rewrite <- Ha0. reflexivity.
Qed.

End MoreSetupProperties.

(** ** More on process *)

Lemma dict_get_set_other (k k' v : string) (d : dict) :
  k' <> k -> dict_get k' (dict_set k v d) = dict_get k' d.
Proof.
  intros Hk. induction d as [| [k0 v0] d IH]; cbn.
  - apply String.eqb_neq in Hk. rewrite String.eqb_sym. now rewrite Hk.
  - destruct (String.eqb k0 k) eqn:E; cbn.
    + apply String.eqb_eq in E. subst k0.
      apply String.eqb_neq in Hk. rewrite String.eqb_sym. now rewrite Hk.
    + now rewrite IH.
Qed.

Lemma dict_set_keys (k v : string) (d : dict) :
  map fst (dict_set k v d)
  = if str_in k (map fst d) then map fst d else (map fst d ++ [k])%list.
Proof.
  unfold str_in. induction d as [| [k0 v0] d IH]; cbn.
  - reflexivity.
  - rewrite (String.eqb_sym k k0). destruct (String.eqb k0 k) eqn:E; cbn.
    + apply String.eqb_eq in E. now subst k0.
    + rewrite IH. now destruct (existsb (String.eqb k) (map fst d)).
Qed.

Section MoreProcessProperties.

Ltac open_state st :=
  destruct st as [[k d ar e l] c clk r]; cbn in *; subst.

Ltac run_process :=
  unfold process, check_unused, call, on_self, update_artifact, the_artifact,
    bind, get, modify, ret, raise, lift;
  cbn.

(** X8: a class that defines process_text only, whose process_text returns:
    process returns "process_text" after one call of process_text on the
    artifact's input text; the result is fragment '1' of data_dict, every
    other fragment of data_dict is kept, the keys keep their order ('1' is
    appended when it is new), and input_data_dict is unchanged. *)
Theorem process_text_only st a f output_text :
  process_text (klass (self st)) = Some f ->
  process_dict (klass (self st)) = None ->
  process_text_to_dict (klass (self st)) = None ->
  artifact (self st) = Some a ->
  f (input_text a) = Return output_text ->
  exists st' a',
    process st = (Return "process_text", st')
    /\ artifact (self st') = Some a'
    /\ dict_get "1" (data_dict a') = Some output_text
    /\ (forall k, k <> "1" -> dict_get k (data_dict a') = dict_get k (data_dict a))
    /\ map fst (data_dict a')
       = (if str_in "1" (map fst (data_dict a))
          then map fst (data_dict a)
          else map fst (data_dict a) ++ ["1"])%list
    /\ input_data_dict a' = input_data_dict a
    /\ calls st' = (calls st ++ [CallProcessText (input_text a)])%list.
Proof.
  intros Hf Hg Hh Ha Hout. open_state st. run_process.
  rewrite Hf, Hg, Hh. cbn. rewrite Hout. cbn.
  eexists. eexists. split; [reflexivity |]. split; [reflexivity |]. cbn.
  split; [apply dict_get_set |].
  split; [intros k' Hk; now apply dict_get_set_other |].
  split; [apply dict_set_keys |]. split; reflexivity.
Qed.

(** X9: a class that defines process_dict only, whose process_dict returns:
    process returns "process_dict" after one call of process_dict on
    input_data_dict, and data_dict is what it returned, whatever data_dict
    held before. *)
Theorem process_dict_only st a g output_dict :
  process_text (klass (self st)) = None ->
  process_dict (klass (self st)) = Some g ->
  process_text_to_dict (klass (self st)) = None ->
  artifact (self st) = Some a ->
  g (input_data_dict a) = Return output_dict ->
  process st
  = (Return "process_dict",
     mkState (with_artifact (set_data_dict output_dict a) (self st))
             (calls st ++ [CallProcessDict (input_data_dict a)])
             (clock st) (reads st)).
Proof.
  intros Hf Hg Hh Ha Hout. open_state st. run_process.
  rewrite Hf, Hg, Hh. cbn. rewrite Hout. reflexivity.
Qed.

(** X10: a class that defines process_text_to_dict only, whose
    process_text_to_dict returns: process returns "process_text_to_dict"
    after one call of it on the artifact's input text, and data_dict is what
    it returned. *)
Theorem process_text_to_dict_only st a f output_dict :
  process_text (klass (self st)) = None ->
  process_dict (klass (self st)) = None ->
  process_text_to_dict (klass (self st)) = Some f ->
  artifact (self st) = Some a ->
  f (input_text a) = Return output_dict ->
  process st
  = (Return "process_text_to_dict",
     mkState (with_artifact (set_data_dict output_dict a) (self st))
             (calls st ++ [CallProcessTextToDict (input_text a)])
             (clock st) (reads st)).
Proof.
  intros Hf Hg Hh Ha Hout. open_state st. run_process.
  rewrite Hf, Hg, Hh. cbn. rewrite Hout. reflexivity.
Qed.

(** X12: on an instance without artifact process raises AttributeError,
    whatever the class defines; no convenience method is called. *)
Theorem process_without_artifact st :
  artifact (self st) = None ->
  process st = (Raise (AttributeError "artifact"), st).
Proof.
  intros Ha. open_state st.
  destruct k as [n inp out al [pt |] [pd |] [pttd |]]; run_process; reflexivity.
Qed.

(** X13: when the first convenience method found raises, process raises
    its exception: that call is the only call process makes, no other
    convenience method is tried after it. *)
Theorem process_failing_style_propagates st a err :
  artifact (self st) = Some a ->
  selected_raises (klass (self st)) a = Some err ->
  fst (process st) = Raise err
  /\ exists c,
      is_style_call c = true
      /\ calls (snd (process st)) = (calls st ++ [c])%list
      /\ match c with
         | CallProcessText _ => selected_style (klass (self st)) = Some "process_text"
         | CallProcessDict _ => selected_style (klass (self st)) = Some "process_dict"
         | CallProcessTextToDict _ =>
             selected_style (klass (self st)) = Some "process_text_to_dict"
         | _ => False
         end.
Proof.
  intros Ha He. open_state st.
  destruct k as [n inp out al [pt |] [pd |] [pttd |]];
    unfold selected_raises, selected_style, raised in *; cbn in He |- *;
    try discriminate;
    run_process;
    repeat match goal with
           | H : match ?f ?x with Return _ => None | Raise _ => _ end = Some _
             |- _ => destruct (f x); [discriminate | injection H as ->]
           end;
    cbn; (split; [reflexivity |]); eexists;
    (split; [| split; [reflexivity |]]); reflexivity.
Qed.

End MoreProcessProperties.

(** ** More on generate_artifact and set_input_text *)

Section MoreLifecycleProperties.

Variable Artifact_new : Artifact.
Variable dj_file_exists : Artifact -> bool.
Variable load_dj : Artifact -> outcome Artifact.
Variable artifact_generate : Artifact -> Artifact.


Ltac open_state st :=
  destruct st as [[k d ar e l] c clk r]; cbn -[process] in *; subst.

Lemma generate_artifact_needs_artifact st :
  artifact (self st) = None ->
  generate_artifact dj_file_exists load_dj artifact_generate st
  = (Raise (AttributeError "artifact"), snd (time_time st)).
Proof.
  intros Ha. open_state st.
  unfold generate_artifact, time_time, on_self, the_artifact, with_self,
    bind, get, modify, ret, raise.
  reflexivity.
Qed.

(** X14: whenever generate_artifact returns, what it returns is the
    instance's artifact; the clock has been read twice; exactly one row has
    been handed to the controller in the invocation, and it is the last
    call: the key, the hashstring and the doc key of the returned artifact,
    the class name, "cached" or "generated", the two clock readings and their
    difference.  Before it, the calls of the invocation are either the one
    [artifact.load_dj()] or calls of convenience methods followed by the one
    [artifact.generate()]. *)
Theorem generate_artifact_reports_row st a' st' :
  generate_artifact dj_file_exists load_dj artifact_generate st = (Return a', st') ->
  artifact (self st') = Some a'
  /\ clock st' = clock st
  /\ reads st' = S (S (reads st))
  /\ exists before method,
      calls st'
      = (calls st ++ before
           ++ [CallLogTime
                 (mkRow (key a') (hashstring a') (doc_key (a_doc a'))
                        (name (klass (self st))) method
                        (clock st (reads st)) (clock st (S (reads st)))
                        (clock st (S (reads st)) - clock st (reads st)))])%list
      /\ reported st' = (reported st ++ [method])%list
      /\ ((method = "cached"
           /\ exists a, artifact (self st) = Some a /\ before = [CallLoadDj a])
          \/ (method = "generated"
              /\ exists styles a2,
                  forallb is_style_call styles = true
                  /\ before = (styles ++ [CallGenerate a2])%list)).
Proof.
  intros Hrun.
  destruct (artifact (self st)) as [a |] eqn:Ha.
  - destruct (dj_file_exists a) eqn:Hx.
    + rewrite (generate_artifact_cached _ _ _ st a Ha Hx) in Hrun.
      destruct (load_dj a) as [loaded | err]; [| discriminate].
      injection Hrun as <- <-. cbn.
      split; [reflexivity |]. split; [reflexivity |]. split; [reflexivity |].
      exists [CallLoadDj a], "cached".
      split; [reflexivity |].
      split; [unfold reported; cbn [calls]; now rewrite flat_map_app |].
      left. split; [reflexivity |]. now exists a.
    + rewrite (generate_artifact_miss _ _ _ st a Ha Hx) in Hrun.
      destruct (process_only_style_calls (snd (time_time st)))
        as [l [Hl [Hstyle [Hclock [Hreads Hklass]]]]].
      destruct (process_persists_nothing (snd (time_time st))) as [_ Hrep].
      destruct (process (snd (time_time st))) as [[m | err] st2];
        [| discriminate].
      cbn [snd] in Hl, Hclock, Hreads, Hklass, Hrep.
      destruct (artifact (self st2)) as [a2 |]; [| discriminate].
      injection Hrun as <- <-. cbn.
      cbn in Hclock, Hreads, Hklass, Hl. rewrite Hclock, Hreads, Hklass.
      split; [reflexivity |]. split; [reflexivity |]. split; [reflexivity |].
      exists (l ++ [CallGenerate a2])%list, "generated".
      split; [rewrite Hl; now rewrite <- !app_assoc |].
      split.
      * unfold reported in *. cbn [calls] in *.
        rewrite flat_map_app, Hrep. reflexivity.
      * right. split; [reflexivity |]. now exists l, a2.
  - rewrite (generate_artifact_needs_artifact st Ha) in Hrun. discriminate.
Qed.

(** X15: set_input_text on an instance without artifact gives it an artifact
    whose input is the one fragment '1' holding the text and whose output is
    empty; a second set_input_text then raises DuplicateArtifactBinding and
    changes nothing. *)
Theorem set_input_text_once_only st t t' :
  artifact (self st) = None ->
  exists st1 a,
    set_input_text Artifact_new t st = (Return tt, st1)
    /\ artifact (self st1) = Some a
    /\ input_data_dict a = [("1", t)]
    /\ data_dict a = []
    /\ input_text a = t
    /\ set_input_text Artifact_new t' st1 = (Raise DuplicateArtifactBinding, st1).
Proof.
  intros Ha. open_state st.
  unfold set_input_text, on_self, update_artifact, the_artifact, with_self,
    bind, get, modify, ret, raise.
  cbn. eexists. eexists. repeat split.
Qed.

(** X16: set_input_text followed by process, on a class that defines no
    convenience method: the output is the one fragment '1' holding the text. *)
Theorem set_input_text_then_process_identity st t :
  artifact (self st) = None ->
  process_text (klass (self st)) = None ->
  process_dict (klass (self st)) = None ->
  process_text_to_dict (klass (self st)) = None ->
  exists st' a,
    (set_input_text Artifact_new t ;;; process) st = (Return "process", st')
    /\ artifact (self st') = Some a
    /\ data_dict a = [("1", t)]
    /\ calls st' = calls st.
Proof.
  intros Ha Hf Hg Hh. open_state st.
  unfold set_input_text, process, check_unused, call, on_self, update_artifact,
    the_artifact, with_self, bind, get, modify, ret, raise, lift.
  cbn. rewrite Hf, Hg, Hh. cbn. eexists. eexists. repeat split.
Qed.

(** X17: set_input_text followed by process, on a class that defines
    process_text only: process_text is called once, on the very text that was
    set, and what it returns is the one fragment of the output. *)
Theorem set_input_text_then_process_text st t f output_text :
  artifact (self st) = None ->
  process_text (klass (self st)) = Some f ->
  process_dict (klass (self st)) = None ->
  process_text_to_dict (klass (self st)) = None ->
  f t = Return output_text ->
  exists st' a,
    (set_input_text Artifact_new t ;;; process) st = (Return "process_text", st')
    /\ artifact (self st') = Some a
    /\ data_dict a = [("1", output_text)]
    /\ input_data_dict a = [("1", t)]
    /\ calls st' = (calls st ++ [CallProcessText t])%list.
Proof.
  intros Ha Hf Hg Hh Hout. open_state st.
  unfold set_input_text, process, check_unused, call, on_self, update_artifact,
    the_artifact, with_self, record_call, bind, get, modify, ret, raise, lift.
  cbn. rewrite Hf, Hg, Hh. cbn. rewrite Hout. cbn.
  eexists. eexists. repeat split.
Qed.

End MoreLifecycleProperties.

(** ** The further theorems at concrete inputs *)

Lemma setup_takes_first_output_witness :
  accepts (ex_class "Markdown" ["md"] ["html"; "tex"]) (ext (ex_previous "md")) = true
  /\ str_in ".*" ["html"; "tex"] = false
  /\ str_in ".*" (INPUT_EXTENSIONS DexyHandler) = true
  /\ exists h a,
      setup ex_Artifact_setup ex_hash_of true
            (ex_class "Markdown" ["md"] ["html"; "tex"]) ex_doc "intro.md|markdown"
            (Some (ex_previous "md")) (Some DexyHandler)
      = (Return h, h)
      /\ artifact h = Some a /\ ext a = Some "html".
Proof.
  split; [reflexivity |]. split; [reflexivity |]. split; [reflexivity |].
  apply (setup_takes_first_output
           ex_Artifact_setup ex_hash_of true
           (ex_class "Markdown" ["md"] ["html"; "tex"]) ex_doc "intro.md|markdown"
           (ex_previous "md") (Some DexyHandler) "html" ["tex"]);
    reflexivity.
Defined.

Lemma setup_empty_outputs_witness :
  accepts (ex_class "Sink" [".*"] []) (ext (ex_previous "md")) = true
  /\ OUTPUT_EXTENSIONS (ex_class "Sink" [".*"] []) = []
  /\ truthy (ext (ex_Artifact_setup ex_doc "intro.md|sink" (ex_class "Sink" [".*"] [])
                    (Some (ex_previous "md")))) = false
  /\ fst (setup ex_Artifact_setup ex_hash_of true (ex_class "Sink" [".*"] [])
            ex_doc "intro.md|sink" (Some (ex_previous "md")) None)
     = Raise (IndexError "list index out of range").
Proof.
  split; [reflexivity |]. split; [reflexivity |]. split; [reflexivity |].
  apply (setup_empty_outputs
           ex_Artifact_setup ex_hash_of true (ex_class "Sink" [".*"] [])
           ex_doc "intro.md|sink" (ex_previous "md") None);
    reflexivity.
Defined.

Lemma setup_resolved_extension_is_declared_witness :
  str_in ".*" ["html"; "tex"] = false
  /\ truthy (ext (ex_Artifact_setup ex_doc "intro.md|markdown"
                    (ex_class "Markdown" ["md"] ["html"; "tex"])
                    (Some (ex_previous "md")))) = false
  /\ exists a e,
      artifact (snd (setup ex_Artifact_setup ex_hash_of true
                       (ex_class "Markdown" ["md"] ["html"; "tex"]) ex_doc
                       "intro.md|markdown" (Some (ex_previous "md"))
                       (Some (ex_class "Latex" ["tex"; "txt"] ["pdf"]))))
      = Some a
      /\ ext a = Some e
      /\ In e ["html"; "tex"] /\ e <> ".*"
      /\ (str_in ".*" ["tex"; "txt"] = false -> In e ["tex"; "txt"] /\ e <> "").
Proof.
  split; [reflexivity |]. split; [reflexivity |].
  apply (setup_resolved_extension_is_declared
           ex_Artifact_setup ex_hash_of true
           (ex_class "Markdown" ["md"] ["html"; "tex"]) ex_doc "intro.md|markdown"
           (ex_previous "md") (Some (ex_class "Latex" ["tex"; "txt"] ["pdf"])));
    reflexivity.
Defined.

(** The spec's example of the negotiation: html and tex are produced, tex and
    txt are accepted. *)
Lemma setup_first_match_when_unique_witness :
  accepts (ex_class "Markdown" ["md"] ["html"; "tex"]) (ext (ex_previous "md")) = true
  /\ str_in ".*" ["html"; "tex"] = false
  /\ str_in ".*" ["tex"; "txt"] = false
  /\ spec_first_match ["html"; "tex"] ["tex"; "txt"] = Some "tex"
  /\ exists h a,
      setup ex_Artifact_setup ex_hash_of true
            (ex_class "Markdown" ["md"] ["html"; "tex"]) ex_doc "intro.md|markdown"
            (Some (ex_previous "md")) (Some (ex_class "Latex" ["tex"; "txt"] ["pdf"]))
      = (Return h, h)
      /\ artifact h = Some a /\ ext a = Some "tex".
Proof.
  split; [reflexivity |]. split; [reflexivity |]. split; [reflexivity |].
  split; [reflexivity |].
  apply (setup_first_match_when_unique
           ex_Artifact_setup ex_hash_of true
           (ex_class "Markdown" ["md"] ["html"; "tex"]) ex_doc "intro.md|markdown"
           (ex_previous "md") (ex_class "Latex" ["tex"; "txt"] ["pdf"]) "tex");
    try reflexivity.
  - intros e' [<- | [<- | []]] H; [discriminate H | reflexivity].
  - discriminate.
Defined.

Lemma setup_empty_extension_counts_as_none_witness :
  accepts (ex_class "Strip" [".*"] ["html"; ""]) (ext (ex_previous "md")) = true
  /\ str_in ".*" ["html"; ""] = false
  /\ str_in ".*" ["html"; ""] = false
  /\ str_in "html" ["html"; ""] = true
  /\ str_in "" ["html"; ""] = true
  /\ fst (setup ex_Artifact_setup ex_hash_of true
            (ex_class "Strip" [".*"] ["html"; ""]) ex_doc "intro.md|strip"
            (Some (ex_previous "md")) (Some (ex_class "Plain" ["html"; ""] [".*"])))
     = Raise NoCompatibleFormat.
Proof.
  split; [reflexivity |]. split; [reflexivity |]. split; [reflexivity |].
  split; [reflexivity |]. split; [reflexivity |].
  apply (setup_empty_extension_counts_as_none
           ex_Artifact_setup ex_hash_of true
           (ex_class "Strip" [".*"] ["html"; ""]) ex_doc "intro.md|strip"
           (ex_previous "md") (ex_class "Plain" ["html"; ""] [".*"]) ["html"]);
    reflexivity.
Defined.

Lemma setup_returned_handler_witness :
  fst (setup ex_Artifact_setup ex_hash_of true
         (ex_class "Markdown" ["md"] ["html"; "tex"]) ex_doc "intro.md|markdown"
         (Some (ex_previous "md")) (Some (ex_class "Latex" ["tex"; "txt"] ["pdf"])))
  = Return (snd (setup ex_Artifact_setup ex_hash_of true
                   (ex_class "Markdown" ["md"] ["html"; "tex"]) ex_doc
                   "intro.md|markdown" (Some (ex_previous "md"))
                   (Some (ex_class "Latex" ["tex"; "txt"] ["pdf"]))))
  /\ exists resolved,
      let a0 :=
        set_ext resolved
          (named_for (Some (ex_class "Latex" ["tex"; "txt"] ["pdf"]))
             (ex_Artifact_setup ex_doc "intro.md|markdown"
                (ex_class "Markdown" ["md"] ["html"; "tex"])
                (Some (ex_previous "md")))) in
      artifact (snd (setup ex_Artifact_setup ex_hash_of true
                       (ex_class "Markdown" ["md"] ["html"; "tex"]) ex_doc
                       "intro.md|markdown" (Some (ex_previous "md"))
                       (Some (ex_class "Latex" ["tex"; "txt"] ["pdf"]))))
      = Some (set_hashstring_field (ex_hash_of a0) a0).
Proof.
  split; [reflexivity |].
  destruct (setup_returned_handler
              ex_Artifact_setup ex_hash_of true
              (ex_class "Markdown" ["md"] ["html"; "tex"]) ex_doc
              "intro.md|markdown" (ex_previous "md")
              (Some (ex_class "Latex" ["tex"; "txt"] ["pdf"])) _ eq_refl)
    as (_ & _ & _ & _ & _ & _ & H).
  exact H.
Defined.

Lemma process_text_only_witness :
  exists st' a',
    process (ex_state (ex_stage (Some exclaim) None None))
    = (Return "process_text", st')
    /\ artifact (self st') = Some a'
    /\ dict_get "1" (data_dict a') = Some "hello world!"
    /\ input_data_dict a' = [("1", "hello "); ("2", "world")]
    /\ calls st' = [CallProcessText "hello world"].
Proof.
  destruct (process_text_only
              (ex_state (ex_stage (Some exclaim) None None)) ex_artifact
              exclaim "hello world!" eq_refl eq_refl eq_refl eq_refl eq_refl)
    as (st' & a' & H1 & H2 & H3 & _ & _ & H6 & H7).
  exists st', a'. repeat split; assumption.
Defined.

Lemma process_dict_only_witness :
  process (ex_state (ex_stage None (Some same_dict) None))
  = (Return "process_dict",
     mkState (with_artifact
                (set_data_dict [("1", "hello "); ("2", "world")] ex_artifact)
                (self (ex_state (ex_stage None (Some same_dict) None))))
             [CallProcessDict [("1", "hello "); ("2", "world")]]
             (fun n => Z.of_nat n) 0).
Proof.
  exact (process_dict_only
           (ex_state (ex_stage None (Some same_dict) None)) ex_artifact
           same_dict [("1", "hello "); ("2", "world")]
           eq_refl eq_refl eq_refl eq_refl eq_refl).
Defined.

Lemma process_text_to_dict_only_witness :
  process (ex_state (ex_stage None None (Some split_stub)))
  = (Return "process_text_to_dict",
     mkState (with_artifact (set_data_dict [("1", "hello world")] ex_artifact)
                (self (ex_state (ex_stage None None (Some split_stub)))))
             [CallProcessTextToDict "hello world"]
             (fun n => Z.of_nat n) 0).
Proof.
  exact (process_text_to_dict_only
           (ex_state (ex_stage None None (Some split_stub))) ex_artifact
           split_stub [("1", "hello world")]
           eq_refl eq_refl eq_refl eq_refl eq_refl).
Defined.

Lemma process_without_artifact_witness :
  process (ex_new_state (ex_stage (Some exclaim) None None))
  = (Raise (AttributeError "artifact"),
     ex_new_state (ex_stage (Some exclaim) None None)).
Proof.
  exact (process_without_artifact
           (ex_new_state (ex_stage (Some exclaim) None None)) eq_refl).
Defined.

Lemma process_failing_style_propagates_witness :
  fst (process (ex_state (ex_stage (Some failing_text) (Some same_dict) None)))
  = Raise (Exception "bad input")
  /\ exists c,
      is_style_call c = true
      /\ calls (snd (process (ex_state
                                (ex_stage (Some failing_text) (Some same_dict) None))))
         = (calls (ex_state (ex_stage (Some failing_text) (Some same_dict) None))
              ++ [c])%list
      /\ match c with
         | CallProcessText _ =>
             selected_style (ex_stage (Some failing_text) (Some same_dict) None)
             = Some "process_text"
         | CallProcessDict _ =>
             selected_style (ex_stage (Some failing_text) (Some same_dict) None)
             = Some "process_dict"
         | CallProcessTextToDict _ =>
             selected_style (ex_stage (Some failing_text) (Some same_dict) None)
             = Some "process_text_to_dict"
         | _ => False
         end.
Proof.
  exact (process_failing_style_propagates
           (ex_state (ex_stage (Some failing_text) (Some same_dict) None))
           ex_artifact (Exception "bad input") eq_refl eq_refl).
Defined.

Lemma generate_artifact_reports_row_witness :
  exists before method,
    calls (snd (generate_artifact cache_hit ex_load_dj ex_artifact_generate
                  (ex_state (ex_stage (Some exclaim) None None))))
    = (calls (ex_state (ex_stage (Some exclaim) None None)) ++ before
         ++ [CallLogTime
               (mkRow "intro.md|stage" "h1" "intro.md" "Stage" method 0 1 1)])%list
    /\ reported (snd (generate_artifact cache_hit ex_load_dj ex_artifact_generate
                        (ex_state (ex_stage (Some exclaim) None None))))
       = (reported (ex_state (ex_stage (Some exclaim) None None)) ++ [method])%list
    /\ ((method = "cached"
         /\ exists a,
             artifact (self (ex_state (ex_stage (Some exclaim) None None))) = Some a
             /\ before = [CallLoadDj a])
        \/ (method = "generated"
            /\ exists styles a2,
                forallb is_style_call styles = true
                /\ before = (styles ++ [CallGenerate a2])%list)).
Proof.
  destruct (generate_artifact_reports_row
              cache_hit ex_load_dj ex_artifact_generate
              (ex_state (ex_stage (Some exclaim) None None))
              (set_data_dict [("1", "from the cache")] ex_artifact)
              (snd (generate_artifact cache_hit ex_load_dj ex_artifact_generate
                      (ex_state (ex_stage (Some exclaim) None None))))
              eq_refl)
    as (_ & _ & _ & H).
  exact H.
Defined.

Lemma set_input_text_once_only_witness :
  exists st1 a,
    set_input_text ex_Artifact_new "hello" (ex_new_state DexyHandler)
    = (Return tt, st1)
    /\ artifact (self st1) = Some a
    /\ input_data_dict a = [("1", "hello")]
    /\ data_dict a = []
    /\ input_text a = "hello"
    /\ set_input_text ex_Artifact_new "again" st1
       = (Raise DuplicateArtifactBinding, st1).
Proof.
  exact (set_input_text_once_only ex_Artifact_new (ex_new_state DexyHandler)
           "hello" "again" eq_refl).
Defined.

Lemma set_input_text_then_process_identity_witness :
  exists st' a,
    (set_input_text ex_Artifact_new "hello" ;;; process) (ex_new_state DexyHandler)
    = (Return "process", st')
    /\ artifact (self st') = Some a
    /\ data_dict a = [("1", "hello")]
    /\ calls st' = [].
Proof.
  exact (set_input_text_then_process_identity
           ex_Artifact_new (ex_new_state DexyHandler) "hello"
           eq_refl eq_refl eq_refl eq_refl).
Defined.

Lemma set_input_text_then_process_text_witness :
  exists st' a,
    (set_input_text ex_Artifact_new "hello" ;;; process)
      (ex_new_state (ex_stage (Some exclaim) None None))
    = (Return "process_text", st')
    /\ artifact (self st') = Some a
    /\ data_dict a = [("1", "hello!")]
    /\ input_data_dict a = [("1", "hello")]
    /\ calls st' = [CallProcessText "hello"].
Proof.
  exact (set_input_text_then_process_text
           ex_Artifact_new (ex_new_state (ex_stage (Some exclaim) None None))
           "hello" exclaim "hello!" eq_refl eq_refl eq_refl eq_refl eq_refl).
Defined.
